(** * Boiler: a shallow embedding of [boiler.py] and its specification

    The Python class [Boiler] keeps every intermediate result as an
    attribute of the instance and uses "does the attribute exist"
    ([hasattr]) as its state flags.  The embedding follows that shape:

    - an instance is its attribute dictionary, a finite map from attribute
      names to Python objects;
    - a method is a computation in a state-and-exception monad over that
      dictionary, in which an exception keeps every assignment made before
      it was raised (Python does not roll back);
    - numbers are exact rationals: the Python floats of the source are
      idealised (no rounding, no NaN, no infinities), and Python's
      [int]/[float] distinction is not kept;
    - the steam property provider ([from state import State]) is not part
      of the file and is taken as a parameter.

    What the exact numbers leave out is: the rounding of every float
    operation, the special values (NaN, the infinities, the signed zero),
    and the [OverflowError] of Python when an [int] too large for a float
    meets a float.  The theorems about values are therefore stated so
    that they do not rest on exact arithmetic: they are about which
    attributes are read and assigned, in which order, and which
    exception is raised where; a statement about a call that computes
    takes "the call returned" as its hypothesis.  Where a property of the
    source fails at a special value, the lines concerned are restated
    over IEEE binary64 floats, which are Python's. *)

From Stdlib Require Import QArith Qcanon PrimFloat.
From stdpp Require Import base numbers strings gmap.

Local Open Scope Qc_scope.

(** ** Python objects, exceptions, outcomes *)

(** The objects stored in attributes: [True] (the presence flags) and
    numbers.  [bool] is a subclass of [int] in Python, so a flag read as a
    number is [1] or [0]. *)
Inductive pyobj : Type :=
  | PyBool (b : bool)
  | PyNum (q : Qc).

Definition num (v : pyobj) : Qc :=
  match v with
  | PyBool true => 1
  | PyBool false => 0
  | PyNum q => q
  end.

(** The exceptions the program can raise.  [ValueError] carries the message
    of the [raise] statement, [AttributeError] the name of the missing
    attribute; [InvalidStateError] is the provider's. *)
Inductive exn : Type :=
  | TypeError
  | ValueError (msg : string)
  | AttributeError (name : string)
  | ZeroDivisionError
  | InvalidStateError.

Inductive outcome (A : Type) : Type :=
  | Return (a : A)
  | Raise (e : exn).
Arguments Return {A} a.
Arguments Raise {A} e.

(** The [ValueError]s of the source, under the names the specification
    gives them. *)
Definition InvalidEfficiencyError : exn :=
  ValueError "Efficiency should be in between zero and one.".
Definition PreconditionError_economiser : exn :=
  ValueError "No economiser present".
Definition PreconditionError_boiler : exn :=
  ValueError "Please fit boiler as accessories alone cannotdo anything.".
Definition MissingParameterError : exn :=
  ValueError "If economiser is not fit both input temperature and output temperature should be provided.".

(** ** The instance and the method monad *)

(** [self.__dict__]. *)
Abbreviation Boiler := (gmap string pyobj).

Definition M (A : Type) : Type := Boiler → outcome A * Boiler.

Definition ret {A} (a : A) : M A := λ s, (Return a, s).
Definition raise {A} (e : exn) : M A := λ s, (Raise e, s).
Definition bind {A B} (c : M A) (k : A → M B) : M B :=
  λ s, match c s with
       | (Return a, s') => k a s'
       | (Raise e, s') => (Raise e, s')
       end.
(** A computation that does not touch the instance. *)
Definition lift {A} (o : outcome A) : M A := λ s, (o, s).

#[global] Instance M_ret : MRet M := @ret.
#[global] Instance M_bind : MBind M := λ A B k c, bind c k.

(** [hasattr(self, name)] *)
Definition hasattr (name : string) : M bool :=
  λ s, (Return (bool_decide (is_Some (s !! name))), s).
(** [self.name] *)
Definition getattr (name : string) : M pyobj :=
  λ s, match s !! name with
       | Some v => (Return v, s)
       | None => (Raise (AttributeError name), s)
       end.
(** [self.name = v] *)
Definition setattr (name : string) (v : pyobj) : M unit :=
  λ s, (Return (), <[name := v]> s).

(** [a / b] on numbers: Python raises where the divisor is zero. *)
Definition py_div (a b : Qc) : outcome Qc :=
  if bool_decide (b = 0) then Raise ZeroDivisionError else Return (a / b).

(** ** Calling a function defined with [def]

    A call binds the positional arguments to the declared parameters and
    raises [TypeError] when their numbers differ (none of the functions
    called this way has defaults).  A call through the instance,
    [self.f(a)], passes the instance as first argument. *)
Inductive pyarg : Type :=
  | ArgSelf
  | ArgNum (q : Qc).

Record pydef (A : Type) : Type := Def {
  co_varnames : list string;
  co_body : list pyarg → outcome A
}.
Arguments Def {A} _ _.
Arguments co_varnames {A} _.
Arguments co_body {A} _ _.

Definition call {A} (f : pydef A) (args : list pyarg) : outcome A :=
  if bool_decide (length args = length (co_varnames f))
  then co_body f args
  else Raise TypeError.

Definition call_bound {A} (f : pydef A) (args : list pyarg) : outcome A :=
  call f (ArgSelf :: args).

(** ** Module constants *)

Definition specific_volume : Qc := Q2Qc (1602 # 100000).
Definition cpair : Qc := 1.
Definition cpwater : Qc := Q2Qc (41855 # 10000).

(** ** [Boiler._check_eff]

    [def _check_eff(eff)]: one declared parameter, and no [self].  The
    body is the range test on a number; the instance in the place of
    [eff] is not ordered against [1]. *)
Definition _check_eff_body (eff : Qc) : outcome Qc :=
  if bool_decide (1 < eff) || bool_decide (eff < 0)
  then Raise InvalidEfficiencyError
  else Return eff.

Definition _check_eff : pydef Qc :=
  Def ["eff"]
      (λ args, match args with
               | [ArgNum eff] => _check_eff_body eff
               | _ => Raise TypeError
               end).

(** [self._check_eff(eff)], as every stage writes it. *)
Definition self_check_eff (eff : Qc) : M Qc :=
  lift (call_bound _check_eff [ArgNum eff]).

(** ** [Boiler.__init__] *)
Definition __init__ (P1 : Qc) : Boiler :=
  <["superheater_heat" := PyNum 0]>
  (<["air_heat" := PyNum 0]>
  (<["economiser_heat" := PyNum 0]>
  (<["pump_work" := PyNum 0]>
  (<["input_pressure" := PyNum P1]> ∅)))).

(** ** [Boiler.feed_pump] *)

(** Lines 44-48, the statements after the efficiency check. *)
Definition feed_pump_body (P2 eff : Qc) : M unit :=
  setattr "pump_present" (PyBool true) ;;
  setattr "output_pressure_pump" (PyNum P2) ;;
  ip ← getattr "input_pressure";
  setattr "pump_work" (PyNum (specific_volume * (P2 - num ip))) ;;
  if bool_decide (eff ≠ 1) then
    pw ← getattr "pump_work";
    r ← lift (py_div 1 eff);
    setattr "pump_work" (PyNum (num pw * r))
  else mret ().

Definition feed_pump (P2 eff : Qc) : M unit :=
  eff' ← self_check_eff eff;
  feed_pump_body P2 eff'.

(** ** The steam property provider

    [State] comes from the module [state], which is not part of the
    repository's source here.  Both the constructor ([State(P=.., x=..)],
    [State(T=.., x=..)]) and the getters may raise. *)
Record provider : Type := Provider {
  state : Type;
  State_P : Qc → Qc → outcome state;
  State_T : Qc → Qc → outcome state;
  getTemp : state → outcome Qc;
  getEnthalpy : state → outcome Qc
}.

Section methods.
Variable prov : provider.

(** ** [Boiler.economiser] *)

(** Lines 59-66: the pressure at the economiser's inlet. *)
Definition inlet_pressure : M pyobj :=
  pump ← hasattr "pump_present";
  if (pump : bool) then getattr "output_pressure_pump"
  else getattr "input_pressure".

(** Lines 71-72: the two flue gas temperatures, the larger one first. *)
Definition flue_order (f1 f2 : Qc) : Qc * Qc :=
  if bool_decide (f1 < f2) then (f2, f1) else (f1, f2).

Definition economiser (f1 f2 : Qc) : M unit :=
  setattr "economiser_present" (PyBool true) ;;
  P1 ← inlet_pressure;
  st ← lift (State_P prov (num P1) 0);
  t ← lift (getTemp prov st);
  setattr "econ_T1" (PyNum t) ;;
  let '(f1, f2) := flue_order f1 f2 in
  setattr "flue_T1" (PyNum f1) ;;
  setattr "flue_T2" (PyNum f2) ;;
  t1 ← getattr "econ_T1";
  a ← getattr "flue_T1";
  b ← getattr "flue_T2";
  q ← lift (py_div (cpair * (num a - num b)) cpwater);
  setattr "econ_T2" (PyNum (num t1 + q)).

(** ** [Boiler.effectiveness] *)
Definition effectiveness : M Qc :=
  econ ← hasattr "economiser_present";
  if negb (econ : bool) then raise PreconditionError_economiser
  else
    t2 ← getattr "econ_T2";
    t1 ← getattr "econ_T1";
    a ← getattr "flue_T1";
    t1' ← getattr "econ_T1";
    lift (py_div (num t2 - num t1) (num a - num t1')).

(** ** [Boiler.air_preheater] *)

(** [not Tp2]: true of [None] and of a zero. *)
Definition py_not (Tp2 : option Qc) : bool :=
  match Tp2 with
  | None => true
  | Some v => bool_decide (v = 0)
  end.

(** [Tp2 - Tp1]: [None] has no subtraction. *)
Definition py_sub_opt (Tp2 : option Qc) (Tp1 : Qc) : outcome Qc :=
  match Tp2 with
  | None => Raise TypeError
  | Some v => Return (v - Tp1)
  end.

(** Lines 97-101: the outlet temperature the stage goes on with. *)
Definition resolve_Tp2 (Tp2 : option Qc) : M (option Qc) :=
  econ ← hasattr "economiser_present";
  if (econ : bool) then v ← getattr "flue_T2"; mret (Some (num v))
  else if py_not Tp2 then raise MissingParameterError
  else mret Tp2.

(** Lines 97-105. *)
Definition air_preheater_body (Tp1 : Qc) (Tp2 : option Qc) (eff : Qc) : M unit :=
  Tp2 ← resolve_Tp2 Tp2;
  d ← lift (py_sub_opt Tp2 Tp1);
  setattr "air_heat" (PyNum (cpair * d)) ;;
  if bool_decide (eff ≠ 1) then
    ah ← getattr "air_heat";
    r ← lift (py_div 1 eff);
    setattr "air_heat" (PyNum (num ah * r))
  else mret ().

Definition air_preheater (Tp1 : Qc) (Tp2 : option Qc) (eff : Qc) : M unit :=
  eff' ← self_check_eff eff;
  air_preheater_body Tp1 Tp2 eff'.

(** ** [Boiler.boiler] *)

(** Lines 123-125 and 128-130: both enthalpies and the saturation
    temperature at the pressure held by attribute [name]. *)
Definition boiler_at_pressure (name : string) : M pyobj :=
  Pb ← getattr name;
  st ← lift (State_P prov (num Pb) 0);
  h ← lift (getEnthalpy prov st);
  setattr "h1" (PyNum h) ;;
  st ← lift (State_P prov (num Pb) 1);
  h ← lift (getEnthalpy prov st);
  setattr "h2" (PyNum h) ;;
  st ← lift (State_P prov (num Pb) 1);
  t ← lift (getTemp prov st);
  mret (PyNum t).

(** Lines 117-134. *)
Definition boiler_body (eff : Qc) : M unit :=
  econ ← hasattr "economiser_present";
  Tb ← (if (econ : bool) then
          Tb ← getattr "econ_T2";
          st ← lift (State_T prov (num Tb) 0);
          h ← lift (getEnthalpy prov st);
          setattr "h1" (PyNum h) ;;
          st ← lift (State_T prov (num Tb) 1);
          h ← lift (getEnthalpy prov st);
          setattr "h2" (PyNum h) ;;
          mret Tb
        else
          pump ← hasattr "pump_present";
          if (pump : bool) then boiler_at_pressure "output_pressure_pump"
          else boiler_at_pressure "input_pressure");
  setattr "final_temp" Tb ;;
  h2 ← getattr "h2";
  h1 ← getattr "h1";
  setattr "boiler_heat" (PyNum (num h2 - num h1)) ;;
  if bool_decide (eff ≠ 1) then
    bh ← getattr "boiler_heat";
    setattr "boiler_heat" (PyNum (num bh * eff))
  else mret ().

Definition boiler (eff : Qc) : M unit :=
  eff' ← self_check_eff eff;
  boiler_body eff'.

End methods.

(** ** [Boiler.superheater] *)

(** Lines 143-152. *)
Definition superheater_body (final_temp eff : Qc) : M unit :=
  fitted ← hasattr "boiler_heat";
  if negb (fitted : bool) then raise PreconditionError_boiler
  else
    cur ← getattr "final_temp";
    (if bool_decide (final_temp < num cur) then
       setattr "superheater_heat" (PyNum 0)
     else
       cur' ← getattr "final_temp";
       setattr "superheater_heat" (PyNum (cpwater * (final_temp - num cur')))) ;;
    setattr "final_temp" (PyNum final_temp) ;;
    if bool_decide (eff ≠ 1) then
      sh ← getattr "superheater_heat";
      r ← lift (py_div 1 eff);
      setattr "superheater_heat" (PyNum (num sh * r))
    else mret ().

Definition superheater (final_temp eff : Qc) : M unit :=
  eff' ← self_check_eff eff;
  superheater_body final_temp eff'.

(** ** [Boiler.efficiency] and [Boiler.actual_heat] *)

(** [self.boiler_heat - (self.economiser_heat + self.air_heat +
    self.pump_work + self.superheater_heat)], read left to right. *)
Definition net_heat : M Qc :=
  bh ← getattr "boiler_heat";
  eh ← getattr "economiser_heat";
  ah ← getattr "air_heat";
  pw ← getattr "pump_work";
  sh ← getattr "superheater_heat";
  mret (num bh - (num eh + num ah + num pw + num sh)).

Definition efficiency (heat_supplied : Qc) : M Qc :=
  fitted ← hasattr "boiler_heat";
  if negb (fitted : bool) then raise PreconditionError_boiler
  else
    heat ← net_heat;
    lift (py_div heat heat_supplied).

Definition actual_heat : M Qc := net_heat.

(** * Definitions used in the statements *)

(** ** The instance after the assignments of a stage *)

(** [feed_pump], lines 44-46; [ip] is the input pressure read. *)
Definition feed_pump_assigned (P2 : Qc) (ip : pyobj) (s : Boiler) : Boiler :=
  <["pump_work" := PyNum (specific_volume * (P2 - num ip))]>
  (<["output_pressure_pump" := PyNum P2]>
  (<["pump_present" := PyBool true]> s)).

(** [economiser], a completed call; [t] is the inlet temperature the
    provider returned. *)
Definition economiser_done (t f1 f2 : Qc) (s : Boiler) : Boiler :=
  let hot := (flue_order f1 f2).1 in
  let cold := (flue_order f1 f2).2 in
  <["econ_T2" := PyNum (t + cpair * (hot - cold) / cpwater)]>
  (<["flue_T2" := PyNum cold]>
  (<["flue_T1" := PyNum hot]>
  (<["econ_T1" := PyNum t]>
  (<["economiser_present" := PyBool true]> s)))).

(** [boiler], lines 117-134 completed; [Tb] is the saturation temperature
    of the operating point, [h1] and [h2] the enthalpies there. *)
Definition boiler_done (Tb : pyobj) (h1 h2 eff : Qc) (s : Boiler) : Boiler :=
  <["boiler_heat" :=
      PyNum (if bool_decide (eff = 1) then h2 - h1 else (h2 - h1) * eff)]>
  (<["final_temp" := Tb]>
  (<["h2" := PyNum h2]>
  (<["h1" := PyNum h1]> s))).

(** [superheater], lines 146-150; [cur] is the [final_temp] read. *)
Definition superheater_assigned (final_temp : Qc) (cur : pyobj) (s : Boiler)
    : Boiler :=
  <["final_temp" := PyNum final_temp]>
  (<["superheater_heat" :=
       PyNum (if bool_decide (final_temp < num cur) then 0
              else cpwater * (final_temp - num cur))]> s).

(** ** What a computation leaves alone

    Three properties of a computation, each closed under the monad's
    operations, so that they are established by following the text of a
    method. *)

(** [pure c]: no attribute is assigned. *)
Definition pure {A} (c : M A) : Prop := ∀ s, (c s).2 = s.

(** [keeps name c]: the attribute [name] is not assigned. *)
Definition keeps (name : string) {A} (c : M A) : Prop :=
  ∀ s, (c s).2 !! name = s !! name.

(** [grows c]: attributes are never deleted. *)
Definition grows {A} (c : M A) : Prop :=
  ∀ s name, is_Some (s !! name) → is_Some ((c s).2 !! name).

(** ** Reachable instances *)

(** A call of a public method, with its arguments. *)
Inductive invocation : Type :=
  | CallFeedPump (P2 eff : Qc)
  | CallEconomiser (f1 f2 : Qc)
  | CallEffectiveness
  | CallAirPreheater (Tp1 : Qc) (Tp2 : option Qc) (eff : Qc)
  | CallBoiler (eff : Qc)
  | CallSuperheater (final_temp eff : Qc)
  | CallEfficiency (heat_supplied : Qc)
  | CallActualHeat.

(** The instance after the call, whether it returned or raised. *)
Definition invoke (prov : provider) (c : invocation) (s : Boiler) : Boiler :=
  match c with
  | CallFeedPump P2 eff => (feed_pump P2 eff s).2
  | CallEconomiser f1 f2 => (economiser prov f1 f2 s).2
  | CallEffectiveness => (effectiveness s).2
  | CallAirPreheater Tp1 Tp2 eff => (air_preheater Tp1 Tp2 eff s).2
  | CallBoiler eff => (boiler prov eff s).2
  | CallSuperheater final_temp eff => (superheater final_temp eff s).2
  | CallEfficiency heat_supplied => (efficiency heat_supplied s).2
  | CallActualHeat => (actual_heat s).2
  end.

(** The same with every stage entered past its efficiency check: what the
    statements of the stages themselves can reach. *)
Definition invoke_past_check (prov : provider) (c : invocation) (s : Boiler)
    : Boiler :=
  match c with
  | CallFeedPump P2 eff => (feed_pump_body P2 eff s).2
  | CallAirPreheater Tp1 Tp2 eff => (air_preheater_body Tp1 Tp2 eff s).2
  | CallBoiler eff => (boiler_body prov eff s).2
  | CallSuperheater final_temp eff => (superheater_body final_temp eff s).2
  | _ => invoke prov c s
  end.

Inductive reachable (step : invocation → Boiler → Boiler) : Boiler → Prop :=
  | reachable_init (P1 : Qc) : reachable step (__init__ P1)
  | reachable_step (s : Boiler) (c : invocation) :
      reachable step s → reachable step (step c s).

(** The four terms subtracted from [boiler_heat] are there, and the
    economiser's is [0]. *)
Definition accounted (s : Boiler) : Prop :=
  s !! "economiser_heat" = Some (PyNum 0)
  ∧ is_Some (s !! "air_heat")
  ∧ is_Some (s !! "pump_work")
  ∧ is_Some (s !! "superheater_heat").

(** ** Example inputs *)

(** [Boiler(100)] *)
Definition plant100 : Boiler := __init__ (Qc_of_Z 100).

(** A provider whose every lookup is infeasible. *)
Definition failing_provider : provider :=
  Provider unit
    (λ _ _, Raise InvalidStateError) (λ _ _, Raise InvalidStateError)
    (λ _, Raise InvalidStateError) (λ _, Raise InvalidStateError).

(** A provider that answers every lookup: a state is the pair it was built
    from, the saturation temperature is the first component and the
    enthalpy is [1000 x + 4 t]. *)
Definition toy_provider : provider :=
  Provider (Qc * Qc)
    (λ P x, Return (P, x)) (λ T x, Return (T, x))
    (λ st, Return (fst st))
    (λ st, Return (Qc_of_Z 1000 * snd st + Qc_of_Z 4 * fst st)).

(** The attributes a completed boiler stage leaves on [Boiler(100)]
    (saturation at 120, enthalpies 500 and 2700, efficiency 1). *)
Definition boiled100 : Boiler :=
  boiler_done (PyNum (Qc_of_Z 120)) (Qc_of_Z 500) (Qc_of_Z 2700) 1 plant100.

(** ** A session

    The instance after a list of calls, made one after the other on what
    the call before left, whether it returned or raised. *)
Definition run_calls (prov : provider) (calls : list invocation) (s : Boiler)
    : Boiler :=
  foldl (λ s c, invoke prov c s) s calls.

(** The attributes that [economiser] assigns. *)
Definition economiser_attrs : list string :=
  ["economiser_present"; "econ_T1"; "flue_T1"; "flue_T2"; "econ_T2"].

(** The arguments of the last call of [economiser] in a list of calls. *)
Definition last_economiser (calls : list invocation) : option (Qc * Qc) :=
  foldl (λ acc c, match c with
                  | CallEconomiser f1 f2 => Some (f1, f2)
                  | _ => acc
                  end) None calls.

(** The attributes that the statements of the other stages assign. *)
Definition feed_pump_attrs : list string :=
  ["pump_present"; "output_pressure_pump"; "pump_work"].
Definition air_preheater_attrs : list string := ["air_heat"].
Definition boiler_attrs : list string := ["h1"; "h2"; "final_temp"; "boiler_heat"].
Definition superheater_attrs : list string := ["superheater_heat"; "final_temp"].

(** ** Lines 71-72 on floats

    [if f2 > f1: f2, f1 = f1, f2] where both temperatures are Python
    floats: [f2 > f1] is the IEEE comparison, false whenever one of the
    two is NaN.  The pair is what lines 74-75 store in [flue_T1] and
    [flue_T2]. *)
Definition flue_order_float (f1 f2 : float) : float * float :=
  if PrimFloat.ltb f1 f2 then (f2, f1) else (f1, f2).

(** * Properties *)

(** ** Running the monad *)

Lemma bind_return {A B} (c : M A) (k : A → M B) (s s' : Boiler) (a : A) :
  c s = (Return a, s') → (c ≫= k) s = k a s'.
Proof. intros Hc. unfold mbind, M_bind, bind. rewrite Hc. reflexivity. Qed.

Lemma bind_raise {A B} (c : M A) (k : A → M B) (s s' : Boiler) (e : exn) :
  c s = (Raise e, s') → (c ≫= k) s = (Raise e, s').
Proof. intros Hc. unfold mbind, M_bind, bind. rewrite Hc. reflexivity. Qed.

Lemma hasattr_Some (name : string) (s : Boiler) (v : pyobj) :
  s !! name = Some v → hasattr name s = (Return true, s).
Proof.
  intros H. unfold hasattr. rewrite bool_decide_eq_true_2; [done|by eexists].
Qed.

Lemma hasattr_None (name : string) (s : Boiler) :
  s !! name = None → hasattr name s = (Return false, s).
Proof.
  intros H. unfold hasattr. rewrite bool_decide_eq_false_2; [done|].
  rewrite H. by intros [? ?].
Qed.

Lemma getattr_Some (name : string) (s : Boiler) (v : pyobj) :
  s !! name = Some v → getattr name s = (Return v, s).
Proof. intros H. unfold getattr. by rewrite H. Qed.

Lemma getattr_None (name : string) (s : Boiler) :
  s !! name = None → getattr name s = (Raise (AttributeError name), s).
Proof. intros H. unfold getattr. by rewrite H. Qed.

Lemma cpwater_nonzero : cpwater ≠ 0.
Proof. intros H. by apply (f_equal this) in H. Qed.

Lemma py_div_nonzero (a b : Qc) : b ≠ 0 → py_div a b = Return (a / b).
Proof. intros H. unfold py_div. by rewrite bool_decide_eq_false_2. Qed.

Lemma py_div_zero (a : Qc) : py_div a 0 = Raise ZeroDivisionError.
Proof. reflexivity. Qed.

(** Unfolds the monad, leaving matches on attribute lookups. *)
Ltac run :=
  unfold mbind, M_bind, bind, mret, M_ret, ret, raise, lift,
         setattr, getattr, hasattr in *; simpl in *.

(** Resolves lookups of attributes through the assignments made so far. *)
Ltac attrs :=
  repeat first [ rewrite lookup_insert_eq
               | rewrite lookup_insert_ne by done ]; simpl.

(** ** The efficiency check as the stages call it *)

(** A function declared with one parameter and called through the
    instance receives two arguments: the call fails whatever its body. *)
Lemma call_bound_one_param {A} (name : string)
    (body : list pyarg → outcome A) (a : pyarg) :
  call_bound (Def [name] body) [a] = Raise TypeError.
Proof. reflexivity. Qed.

Lemma self_check_eff_TypeError (eff : Qc) (s : Boiler) :
  self_check_eff eff s = (Raise TypeError, s).
Proof. reflexivity. Qed.

(** Called as a plain function with its one argument, [_check_eff] is the
    range test. *)
Lemma call_check_eff (eff : Qc) :
  call _check_eff [ArgNum eff] = _check_eff_body eff.
Proof. reflexivity. Qed.

Lemma _check_eff_body_inside (eff : Qc) :
  0 ≤ eff → eff ≤ 1 → _check_eff_body eff = Return eff.
Proof.
  intros H0 H1. unfold _check_eff_body.
  rewrite !bool_decide_eq_false_2; [done| |]; by apply Qcle_not_lt.
Qed.

Lemma _check_eff_body_outside (eff : Qc) :
  eff < 0 ∨ 1 < eff → _check_eff_body eff = Raise InvalidEfficiencyError.
Proof.
  intros [H|H]; unfold _check_eff_body.
  - rewrite (bool_decide_eq_true_2 (eff < 0)) by done. by rewrite orb_true_r.
  - by rewrite (bool_decide_eq_true_2 (1 < eff)).
Qed.

(** Hence every stage that starts with the check stops there. *)
Lemma feed_pump_raises (P2 eff : Qc) (s : Boiler) :
  feed_pump P2 eff s = (Raise TypeError, s).
Proof. unfold feed_pump. apply bind_raise, self_check_eff_TypeError. Qed.

Lemma air_preheater_raises (Tp1 : Qc) (Tp2 : option Qc) (eff : Qc) (s : Boiler) :
  air_preheater Tp1 Tp2 eff s = (Raise TypeError, s).
Proof. unfold air_preheater. apply bind_raise, self_check_eff_TypeError. Qed.

Lemma boiler_raises (prov : provider) (eff : Qc) (s : Boiler) :
  boiler prov eff s = (Raise TypeError, s).
Proof. unfold boiler. apply bind_raise, self_check_eff_TypeError. Qed.

Lemma superheater_raises (final_temp eff : Qc) (s : Boiler) :
  superheater final_temp eff s = (Raise TypeError, s).
Proof. unfold superheater. apply bind_raise, self_check_eff_TypeError. Qed.

(** ** The statements of [feed_pump] after the check (lines 44-48) *)

Lemma feed_pump_body_spec (s : Boiler) (P2 eff : Qc) (ip : pyobj) :
  s !! "input_pressure" = Some ip →
  feed_pump_body P2 eff s =
    if bool_decide (eff = 1) then (Return (), feed_pump_assigned P2 ip s)
    else if bool_decide (eff = 0)
    then (Raise ZeroDivisionError, feed_pump_assigned P2 ip s)
    else (Return (),
          <["pump_work" := PyNum (specific_volume * (P2 - num ip) * (1 / eff))]>
            (feed_pump_assigned P2 ip s)).
Proof.
  intros Hip. unfold feed_pump_body, feed_pump_assigned, py_div. run.
  attrs. rewrite Hip.
  repeat case_bool_decide; simplify_eq; attrs; done.
Qed.

(** ** The statements of [air_preheater] after the check (lines 97-105) *)

Lemma resolve_Tp2_economiser (s : Boiler) (Tp2 : option Qc) (flag v : pyobj) :
  s !! "economiser_present" = Some flag → s !! "flue_T2" = Some v →
  resolve_Tp2 Tp2 s = (Return (Some (num v)), s).
Proof.
  intros He Hv. unfold resolve_Tp2.
  rewrite (bind_return _ _ _ _ _ (hasattr_Some _ _ _ He)).
  by rewrite (bind_return _ _ _ _ _ (getattr_Some _ _ _ Hv)).
Qed.

Lemma resolve_Tp2_missing (s : Boiler) (Tp2 : option Qc) :
  s !! "economiser_present" = None → py_not Tp2 = true →
  resolve_Tp2 Tp2 s = (Raise MissingParameterError, s).
Proof.
  intros He Hn. unfold resolve_Tp2.
  rewrite (bind_return _ _ _ _ _ (hasattr_None _ _ He)). by rewrite Hn.
Qed.

Lemma resolve_Tp2_supplied (s : Boiler) (out : Qc) :
  s !! "economiser_present" = None → out ≠ 0 →
  resolve_Tp2 (Some out) s = (Return (Some out), s).
Proof.
  intros He Hn. unfold resolve_Tp2.
  rewrite (bind_return _ _ _ _ _ (hasattr_None _ _ He)). simpl.
  by rewrite bool_decide_eq_false_2.
Qed.

Lemma air_preheater_body_spec (s : Boiler) (Tp1 eff out : Qc) (Tp2 : option Qc) :
  resolve_Tp2 Tp2 s = (Return (Some out), s) →
  air_preheater_body Tp1 Tp2 eff s =
    let s1 := <["air_heat" := PyNum (cpair * (out - Tp1))]> s in
    if bool_decide (eff = 1) then (Return (), s1)
    else if bool_decide (eff = 0) then (Raise ZeroDivisionError, s1)
    else (Return (),
          <["air_heat" := PyNum (cpair * (out - Tp1) * (1 / eff))]> s1).
Proof.
  intros Hr. unfold air_preheater_body.
  rewrite (bind_return _ _ _ _ _ Hr). unfold py_div. run.
  repeat case_bool_decide; simplify_eq; attrs; done.
Qed.

Lemma air_preheater_body_raise (s : Boiler) (Tp1 eff : Qc) (Tp2 : option Qc)
    (e : exn) :
  resolve_Tp2 Tp2 s = (Raise e, s) →
  air_preheater_body Tp1 Tp2 eff s = (Raise e, s).
Proof. intros Hr. unfold air_preheater_body. by apply bind_raise. Qed.

(** ** The statements of [superheater] after the check (lines 143-152) *)

Lemma superheater_body_requires_boiler (s : Boiler) (final_temp eff : Qc) :
  s !! "boiler_heat" = None →
  superheater_body final_temp eff s = (Raise PreconditionError_boiler, s).
Proof.
  intros Hb. unfold superheater_body.
  by rewrite (bind_return _ _ _ _ _ (hasattr_None _ _ Hb)).
Qed.

Lemma superheater_body_spec (s : Boiler) (final_temp eff : Qc) (bh cur : pyobj) :
  s !! "boiler_heat" = Some bh → s !! "final_temp" = Some cur →
  superheater_body final_temp eff s =
    let s1 := superheater_assigned final_temp cur s in
    let heat := if bool_decide (final_temp < num cur) then 0
                else cpwater * (final_temp - num cur) in
    if bool_decide (eff = 1) then (Return (), s1)
    else if bool_decide (eff = 0) then (Raise ZeroDivisionError, s1)
    else (Return (), <["superheater_heat" := PyNum (heat * (1 / eff))]> s1).
Proof.
  intros Hb Hc. unfold superheater_body, superheater_assigned.
  rewrite (bind_return _ _ _ _ _ (hasattr_Some _ _ _ Hb)).
  unfold py_div. run. rewrite Hc.
  repeat case_bool_decide; simplify_eq; rewrite ?Hc; attrs; done.
Qed.

(** ** What a computation leaves alone *)

Create HintDb frame.

Lemma pure_bind {A B} (c : M A) (k : A → M B) :
  pure c → (∀ a, pure (k a)) → pure (c ≫= k).
Proof.
  intros Hc Hk s. specialize (Hc s). unfold mbind, M_bind, bind.
  destruct (c s) as [[a|e] s']; simpl in *; subst; [apply Hk|done].
Qed.
Lemma pure_ret {A} (a : A) : pure (mret a).
Proof. done. Qed.
Lemma pure_raise {A} (e : exn) : pure (@raise A e).
Proof. done. Qed.
Lemma pure_lift {A} (o : outcome A) : pure (lift o).
Proof. done. Qed.
Lemma pure_hasattr (name : string) : pure (hasattr name).
Proof. done. Qed.
Lemma pure_getattr (name : string) : pure (getattr name).
Proof. intros s. unfold getattr. by destruct (s !! name). Qed.
Lemma pure_if {A} (b : bool) (c1 c2 : M A) :
  pure c1 → pure c2 → pure (if b then c1 else c2).
Proof. by destruct b. Qed.

Lemma pure_keeps {A} (name : string) (c : M A) : pure c → keeps name c.
Proof. intros H s. by rewrite H. Qed.
Lemma keeps_bind {A B} (name : string) (c : M A) (k : A → M B) :
  keeps name c → (∀ a, keeps name (k a)) → keeps name (c ≫= k).
Proof.
  intros Hc Hk s. specialize (Hc s). unfold mbind, M_bind, bind.
  destruct (c s) as [[a|e] s']; simpl in *; [by rewrite Hk|done].
Qed.
Lemma keeps_setattr (name name' : string) (v : pyobj) :
  name ≠ name' → keeps name (setattr name' v).
Proof. intros Hne s. simpl. by rewrite lookup_insert_ne. Qed.
Lemma keeps_if {A} (name : string) (b : bool) (c1 c2 : M A) :
  keeps name c1 → keeps name c2 → keeps name (if b then c1 else c2).
Proof. by destruct b. Qed.

Lemma pure_grows {A} (c : M A) : pure c → grows c.
Proof. intros H s name. by rewrite H. Qed.
Lemma grows_bind {A B} (c : M A) (k : A → M B) :
  grows c → (∀ a, grows (k a)) → grows (c ≫= k).
Proof.
  intros Hc Hk s name Hs. specialize (Hc s name Hs).
  unfold mbind, M_bind, bind.
  destruct (c s) as [[a|e] s']; simpl in *; [by apply Hk|done].
Qed.
Lemma grows_setattr (name : string) (v : pyobj) : grows (setattr name v).
Proof.
  intros s name' Hs. simpl. destruct (decide (name = name')) as [->|Hne].
  - rewrite lookup_insert_eq. by eexists.
  - by rewrite lookup_insert_ne.
Qed.
Lemma grows_if {A} (b : bool) (c1 c2 : M A) :
  grows c1 → grows c2 → grows (if b then c1 else c2).
Proof. by destruct b. Qed.

#[local] Hint Resolve pure_ret pure_raise pure_lift pure_hasattr pure_getattr
  : frame.
#[local] Hint Extern 2 (pure (_ ≫= _)) => apply pure_bind; [|intros ?] : frame.
#[local] Hint Extern 2 (pure (if _ then _ else _)) => apply pure_if : frame.
#[local] Hint Extern 2 (keeps _ (_ ≫= _)) => apply keeps_bind; [|intros ?] : frame.
#[local] Hint Extern 2 (keeps _ (if _ then _ else _)) => apply keeps_if : frame.
#[local] Hint Extern 1 (keeps _ (setattr _ _)) => apply keeps_setattr; done : frame.
#[local] Hint Extern 5 (keeps _ _) => apply pure_keeps : frame.
#[local] Hint Extern 2 (grows (_ ≫= _)) => apply grows_bind; [|intros ?] : frame.
#[local] Hint Extern 2 (grows (if _ then _ else _)) => apply grows_if : frame.
#[local] Hint Resolve grows_setattr : frame.
#[local] Hint Extern 5 (grows _) => apply pure_grows : frame.

(** Follows the text of a method. *)
Ltac frame := auto 40 with frame.

Lemma pure_self_check_eff (eff : Qc) : pure (self_check_eff eff).
Proof. done. Qed.
Lemma pure_inlet_pressure : pure inlet_pressure.
Proof. unfold inlet_pressure. frame. Qed.
Lemma pure_resolve_Tp2 (Tp2 : option Qc) : pure (resolve_Tp2 Tp2).
Proof. unfold resolve_Tp2. frame. Qed.
Lemma pure_net_heat : pure net_heat.
Proof. unfold net_heat. frame. Qed.
#[local] Hint Resolve pure_self_check_eff pure_inlet_pressure
  pure_resolve_Tp2 pure_net_heat : frame.

(** The queries assign nothing. *)
Lemma pure_effectiveness : pure effectiveness.
Proof. unfold effectiveness. frame. Qed.
Lemma pure_efficiency (heat_supplied : Qc) : pure (efficiency heat_supplied).
Proof. unfold efficiency. frame. Qed.
Lemma pure_actual_heat : pure actual_heat.
Proof. unfold actual_heat. frame. Qed.

(** ** [economiser], statement by statement *)

Lemma flue_order_comm (f1 f2 : Qc) : flue_order f1 f2 = flue_order f2 f1.
Proof.
  unfold flue_order. repeat case_bool_decide; try done.
  - exfalso. apply (Qclt_not_eq f1 f1); [|done]. by apply Qclt_trans with f2.
  - assert (f1 = f2) as -> by (apply Qcle_antisym; by apply Qcnot_lt_le).
    done.
Qed.

Lemma flue_order_sorted (f1 f2 : Qc) : (flue_order f1 f2).2 ≤ (flue_order f1 f2).1.
Proof.
  unfold flue_order. case_bool_decide; simpl.
  - by apply Qclt_le_weak.
  - by apply Qcnot_lt_le.
Qed.

Lemma flue_order_inputs (f1 f2 : Qc) :
  flue_order f1 f2 = (f1, f2) ∨ flue_order f1 f2 = (f2, f1).
Proof. unfold flue_order. case_bool_decide; auto. Qed.

Lemma inlet_pressure_marked (s : Boiler) (v : pyobj) :
  inlet_pressure (<["economiser_present" := v]> s)
  = ((inlet_pressure s).1, <["economiser_present" := v]> s).
Proof.
  unfold inlet_pressure. run. attrs.
  case_bool_decide; attrs; case_match; done.
Qed.

Lemma economiser_unfold (prov : provider) (f1 f2 : Qc) (s : Boiler) :
  economiser prov f1 f2 s =
    let s0 := <["economiser_present" := PyBool true]> s in
    match (inlet_pressure s).1 with
    | Raise e => (Raise e, s0)
    | Return P1 =>
        match State_P prov (num P1) 0 with
        | Raise e => (Raise e, s0)
        | Return st =>
            match getTemp prov st with
            | Raise e => (Raise e, s0)
            | Return t => (Return (), economiser_done t f1 f2 s)
            end
        end
    end.
Proof.
  unfold economiser, economiser_done.
  unfold mbind at 1, M_bind at 1, bind at 1. simpl.
  unfold mbind at 1, M_bind at 1, bind at 1. rewrite inlet_pressure_marked.
  destruct (inlet_pressure s).1 as [P1|e]; [|done].
  unfold mbind at 1, M_bind at 1, bind at 1, lift at 1.
  destruct (State_P prov (num P1) 0) as [st|e]; [|done].
  unfold mbind at 1, M_bind at 1, bind at 1, lift at 1.
  destruct (getTemp prov st) as [t|e]; [|done].
  destruct (flue_order f1 f2) as [hot cold]. run. by attrs.
Qed.

(** ** The statements of [boiler] after the check (lines 117-134) *)

Section boiler_paths.
Variable prov : provider.
Variables (s : Boiler) (eff h1 h2 : Qc).

(** No economiser: the operating point is the pressure held by the
    attribute [name]. *)
Lemma boiler_at_pressure_spec (name : string) (Pb : pyobj)
    (st0 st1 : state prov) (t : Qc) :
  s !! name = Some Pb →
  State_P prov (num Pb) 0 = Return st0 → getEnthalpy prov st0 = Return h1 →
  State_P prov (num Pb) 1 = Return st1 → getEnthalpy prov st1 = Return h2 →
  getTemp prov st1 = Return t →
  boiler_at_pressure prov name s
  = (Return (PyNum t), <["h2" := PyNum h2]> (<["h1" := PyNum h1]> s)).
Proof.
  intros HPb H0 Hh1 H1 Hh2 Ht. unfold boiler_at_pressure. run.
  rewrite HPb, H0, Hh1, H1, Hh2, Ht. done.
Qed.

Lemma boiler_body_finish (Tb : M pyobj) (t : pyobj) :
  Tb s = (Return t, <["h2" := PyNum h2]> (<["h1" := PyNum h1]> s)) →
  (Tb ≫= λ Tb,
     setattr "final_temp" Tb ;;
     h2 ← getattr "h2";
     h1 ← getattr "h1";
     setattr "boiler_heat" (PyNum (num h2 - num h1)) ;;
     if bool_decide (eff ≠ 1) then
       bh ← getattr "boiler_heat";
       setattr "boiler_heat" (PyNum (num bh * eff))
     else mret ()) s
  = (Return (), boiler_done t h1 h2 eff s).
Proof.
  intros HTb. rewrite (bind_return _ _ _ _ _ HTb). unfold boiler_done. run.
  attrs. case_bool_decide; simpl; case_bool_decide; try done.
  attrs. by rewrite insert_insert_eq.
Qed.

(** Economiser fitted: the operating point is the temperature [econ_T2]. *)
Lemma boiler_body_economiser (flag Tb : pyobj) (st0 st1 : state prov) :
  s !! "economiser_present" = Some flag →
  s !! "econ_T2" = Some Tb →
  State_T prov (num Tb) 0 = Return st0 → getEnthalpy prov st0 = Return h1 →
  State_T prov (num Tb) 1 = Return st1 → getEnthalpy prov st1 = Return h2 →
  boiler_body prov eff s = (Return (), boiler_done Tb h1 h2 eff s).
Proof.
  intros He HTb H0 Hh1 H1 Hh2. unfold boiler_body.
  rewrite (bind_return _ _ _ _ _ (hasattr_Some _ _ _ He)). simpl.
  apply boiler_body_finish. run.
  rewrite HTb, H0, Hh1, H1, Hh2. done.
Qed.

(** Pump fitted, no economiser: the pump's output pressure. *)
Lemma boiler_body_pump (flag Pb : pyobj) (st0 st1 : state prov) (t : Qc) :
  s !! "economiser_present" = None →
  s !! "pump_present" = Some flag →
  s !! "output_pressure_pump" = Some Pb →
  State_P prov (num Pb) 0 = Return st0 → getEnthalpy prov st0 = Return h1 →
  State_P prov (num Pb) 1 = Return st1 → getEnthalpy prov st1 = Return h2 →
  getTemp prov st1 = Return t →
  boiler_body prov eff s = (Return (), boiler_done (PyNum t) h1 h2 eff s).
Proof.
  intros He Hp HPb H0 Hh1 H1 Hh2 Ht. unfold boiler_body.
  rewrite (bind_return _ _ _ _ _ (hasattr_None _ _ He)). simpl.
  apply boiler_body_finish.
  rewrite (bind_return _ _ _ _ _ (hasattr_Some _ _ _ Hp)). simpl.
  by eapply boiler_at_pressure_spec.
Qed.

(** Neither fitted: the input pressure of the constructor. *)
Lemma boiler_body_plain (Pb : pyobj) (st0 st1 : state prov) (t : Qc) :
  s !! "economiser_present" = None →
  s !! "pump_present" = None →
  s !! "input_pressure" = Some Pb →
  State_P prov (num Pb) 0 = Return st0 → getEnthalpy prov st0 = Return h1 →
  State_P prov (num Pb) 1 = Return st1 → getEnthalpy prov st1 = Return h2 →
  getTemp prov st1 = Return t →
  boiler_body prov eff s = (Return (), boiler_done (PyNum t) h1 h2 eff s).
Proof.
  intros He Hp HPb H0 Hh1 H1 Hh2 Ht. unfold boiler_body.
  rewrite (bind_return _ _ _ _ _ (hasattr_None _ _ He)). simpl.
  apply boiler_body_finish.
  rewrite (bind_return _ _ _ _ _ (hasattr_None _ _ Hp)). simpl.
  by eapply boiler_at_pressure_spec.
Qed.

End boiler_paths.

(** ** The queries *)

Lemma effectiveness_requires_economiser (s : Boiler) :
  s !! "economiser_present" = None →
  effectiveness s = (Raise PreconditionError_economiser, s).
Proof.
  intros He. unfold effectiveness.
  by rewrite (bind_return _ _ _ _ _ (hasattr_None _ _ He)).
Qed.

Lemma efficiency_requires_boiler (heat_supplied : Qc) (s : Boiler) :
  s !! "boiler_heat" = None →
  efficiency heat_supplied s = (Raise PreconditionError_boiler, s).
Proof.
  intros Hb. unfold efficiency.
  by rewrite (bind_return _ _ _ _ _ (hasattr_None _ _ Hb)).
Qed.

(** [actual_heat] has no such guard: the first attribute it reads is the
    missing one. *)
Lemma actual_heat_unguarded (s : Boiler) :
  s !! "boiler_heat" = None →
  actual_heat s = (Raise (AttributeError "boiler_heat"), s).
Proof.
  intros Hb. unfold actual_heat, net_heat.
  by rewrite (bind_raise _ _ _ _ _ (getattr_None _ _ Hb)).
Qed.

Lemma net_heat_spec (s : Boiler) (bh eh ah pw sh : pyobj) :
  s !! "boiler_heat" = Some bh → s !! "economiser_heat" = Some eh →
  s !! "air_heat" = Some ah → s !! "pump_work" = Some pw →
  s !! "superheater_heat" = Some sh →
  net_heat s = (Return (num bh - (num eh + num ah + num pw + num sh)), s).
Proof.
  intros Hbh Heh Hah Hpw Hsh. unfold net_heat. run.
  by rewrite Hbh, Heh, Hah, Hpw, Hsh.
Qed.

Lemma efficiency_spec (heat_supplied : Qc) (s : Boiler) (bh : pyobj) (heat : Qc) :
  s !! "boiler_heat" = Some bh → net_heat s = (Return heat, s) →
  efficiency heat_supplied s = (py_div heat heat_supplied, s).
Proof.
  intros Hb Hn. unfold efficiency.
  rewrite (bind_return _ _ _ _ _ (hasattr_Some _ _ _ Hb)). simpl.
  by rewrite (bind_return _ _ _ _ _ Hn).
Qed.

(** ** The invariant of the heat terms *)

Lemma accounted_init (P1 : Qc) : accounted (__init__ P1).
Proof. unfold accounted, __init__. split_and!; attrs; by eauto. Qed.

Lemma accounted_after {A} (c : M A) (s : Boiler) :
  keeps "economiser_heat" c → grows c → accounted s → accounted (c s).2.
Proof.
  intros Hk Hg (H0 & Ha & Hp & Hs). unfold accounted.
  rewrite Hk. split_and!; [done|by apply Hg..].
Qed.

Section reachability.
Variable prov : provider.

Ltac method := intros; unfold feed_pump, feed_pump_body, economiser,
  air_preheater, air_preheater_body, boiler, boiler_body, boiler_at_pressure,
  superheater, superheater_body, effectiveness, efficiency, actual_heat;
  try destruct (flue_order _ _); frame.

Lemma accounted_invoke (c : invocation) (s : Boiler) :
  accounted s → accounted (invoke prov c s).
Proof.
  destruct c; unfold invoke_past_check, invoke; apply accounted_after; method.
Qed.

Lemma accounted_invoke_past_check (c : invocation) (s : Boiler) :
  accounted s → accounted (invoke_past_check prov c s).
Proof.
  destruct c; unfold invoke_past_check, invoke; apply accounted_after; method.
Qed.

Lemma reachable_accounted (s : Boiler) :
  reachable (invoke prov) s → accounted s.
Proof.
  induction 1 as [P1|s c _ IH]; [apply accounted_init|by apply accounted_invoke].
Qed.

Lemma reachable_past_check_accounted (s : Boiler) :
  reachable (invoke_past_check prov) s → accounted s.
Proof.
  induction 1 as [P1|s c _ IH];
    [apply accounted_init|by apply accounted_invoke_past_check].
Qed.

End reachability.

(** What the two heat queries answer on an instance whose terms are
    accounted for. *)
Lemma accounted_heat (s : Boiler) :
  accounted s →
  ∃ ah pw sh : pyobj,
    s !! "air_heat" = Some ah ∧ s !! "pump_work" = Some pw
    ∧ s !! "superheater_heat" = Some sh
    ∧ actual_heat s =
        (match s !! "boiler_heat" with
         | Some bh => Return (num bh - (num ah + num pw + num sh))
         | None => Raise (AttributeError "boiler_heat")
         end, s)
    ∧ ∀ heat_supplied : Qc,
        efficiency heat_supplied s =
          (match s !! "boiler_heat" with
           | Some bh => py_div (num bh - (num ah + num pw + num sh)) heat_supplied
           | None => Raise PreconditionError_boiler
           end, s).
Proof.
  intros (H0 & [ah Ha] & [pw Hp] & [sh Hs]). exists ah, pw, sh.
  split_and!; try done.
  - destruct (s !! "boiler_heat") as [bh|] eqn:Hb.
    + unfold actual_heat. rewrite (net_heat_spec _ _ _ _ _ _ Hb H0 Ha Hp Hs).
      simpl. by rewrite Qcplus_0_l.
    + by apply actual_heat_unguarded.
  - intros hs. destruct (s !! "boiler_heat") as [bh|] eqn:Hb.
    + rewrite (efficiency_spec _ _ _ _ Hb (net_heat_spec _ _ _ _ _ _ Hb H0 Ha Hp Hs)).
      simpl. by rewrite Qcplus_0_l.
    + by apply efficiency_requires_boiler.
Qed.

(** * The claims of the specification *)

(** C1: an efficiency below 0 or above 1 is to be rejected with
    [InvalidEfficiencyError], the instance unchanged.  The range test
    itself does reject such a value, but no stage reaches it: at
    efficiency 2 and -1 each of the four stages raises [TypeError], which
    is not the error of the range test (the instance is unchanged). *)
Theorem invalid_efficiency_raises_TypeError (prov : provider) :
  _check_eff_body 2 = Raise InvalidEfficiencyError
  ∧ _check_eff_body (-1) = Raise InvalidEfficiencyError
  ∧ (∀ eff : Qc, eff = 2 ∨ eff = -1 →
       feed_pump (Qc_of_Z 150) eff plant100 = (Raise TypeError, plant100)
       ∧ air_preheater (Qc_of_Z 20) (Some (Qc_of_Z 30)) eff plant100
         = (Raise TypeError, plant100)
       ∧ boiler prov eff plant100 = (Raise TypeError, plant100)
       ∧ superheater (Qc_of_Z 200) eff boiled100 = (Raise TypeError, boiled100))
  ∧ TypeError ≠ InvalidEfficiencyError.
Proof.
  split_and!; [done|done| |done].
  intros eff _. split_and!.
  - apply feed_pump_raises.
  - apply air_preheater_raises.
  - apply boiler_raises.
  - apply superheater_raises.
Qed.

(** C2: [_check_eff] is declared with the single parameter [eff] and is
    called as [self._check_eff(eff)]; so [feed_pump], [air_preheater],
    [boiler] and [superheater] raise [TypeError] for every argument and
    every instance, whatever the body of the check, and leave the instance
    as it was. *)
Theorem stages_raise_TypeError (prov : provider) (s : Boiler)
    (P2 Tp1 final_temp eff : Qc) (Tp2 : option Qc) :
  (∀ body : list pyarg → outcome Qc,
      call_bound (Def (co_varnames _check_eff) body) [ArgNum eff]
      = Raise TypeError)
  ∧ feed_pump P2 eff s = (Raise TypeError, s)
  ∧ air_preheater Tp1 Tp2 eff s = (Raise TypeError, s)
  ∧ boiler prov eff s = (Raise TypeError, s)
  ∧ superheater final_temp eff s = (Raise TypeError, s).
Proof.
  split; [intros body; apply call_bound_one_param|].
  split_and!.
  - apply feed_pump_raises.
  - apply air_preheater_raises.
  - apply boiler_raises.
  - apply superheater_raises.
Qed.

(** C3: on a new instance (no economiser, no boiler stage) the dependent
    operations are to fail with [PreconditionError].  [effectiveness] and
    [efficiency] do, without assigning anything; [actual_heat], which has
    no guard, raises [AttributeError] instead, and [superheater] raises
    [TypeError] at its efficiency check. *)
Theorem dependent_operations_on_new_instance
    (P1 heat_supplied final_temp eff : Qc) :
  effectiveness (__init__ P1)
    = (Raise PreconditionError_economiser, __init__ P1)
  ∧ efficiency heat_supplied (__init__ P1)
    = (Raise PreconditionError_boiler, __init__ P1)
  ∧ actual_heat (__init__ P1)
    = (Raise (AttributeError "boiler_heat"), __init__ P1)
  ∧ superheater final_temp eff (__init__ P1) = (Raise TypeError, __init__ P1)
  ∧ AttributeError "boiler_heat" ≠ PreconditionError_boiler
  ∧ TypeError ≠ PreconditionError_boiler.
Proof.
  split_and!.
  - by apply effectiveness_requires_economiser.
  - by apply efficiency_requires_boiler.
  - by apply actual_heat_unguarded.
  - apply superheater_raises.
  - done.
  - done.
Qed.

(** C4: [boiler] is to select its operating point and set [boiler_heat]
    and [final_temp].  As written it stops at the efficiency check: after
    [Boiler(100)], [feed_pump(150, 1)] and [boiler(1)] the instance is
    still the new one, with no [boiler_heat], no [final_temp] and a
    [pump_work] of 0. *)
Theorem boiler_stops_at_check (prov : provider) :
  invoke prov (CallFeedPump (Qc_of_Z 150) 1) plant100 = plant100
  ∧ boiler prov 1 plant100 = (Raise TypeError, plant100)
  ∧ plant100 !! "boiler_heat" = None
  ∧ plant100 !! "final_temp" = None
  ∧ plant100 !! "pump_work" = Some (PyNum 0).
Proof.
  split_and!; [|apply boiler_raises|done..].
  unfold invoke. by rewrite feed_pump_raises.
Qed.

(** C5, as stated: an operation that raises leaves every attribute as it
    was.  Not so for [economiser]: with a provider whose lookup is
    infeasible, [Boiler(100).economiser(400, 300)] raises the provider's
    error and the instance has changed. *)
Lemma economiser_failure_changes_instance :
  (economiser failing_provider (Qc_of_Z 400) (Qc_of_Z 300) plant100).1
    = Raise InvalidStateError
  ∧ (economiser failing_provider (Qc_of_Z 400) (Qc_of_Z 300) plant100).2
    ≠ plant100.
Proof.
  split; [reflexivity|].
  intros H. apply (f_equal (.!! "economiser_present")) in H.
  vm_compute in H. discriminate H.
Qed.

(** C5, amended: the explicit checks come before the first assignment
    (the guards of [effectiveness], [efficiency] and, past the efficiency
    check, of [superheater] and [air_preheater] raise on an unchanged
    instance), and the queries assign nothing whether they return or
    raise; but nothing is rolled back: [economiser] marks itself fitted
    before it asks the provider, so when the lookup of the provider
    raises, [economiser] raises that error and leaves the instance as it
    was except for [economiser_present]. *)
Theorem economiser_failure_keeps_flag (prov : provider) (s : Boiler)
    (f1 f2 : Qc) (P1 : pyobj) (e : exn)
    (Hinlet : (inlet_pressure s).1 = Return P1)
    (Hlookup : State_P prov (num P1) 0 = Raise e
               ∨ ∃ st, State_P prov (num P1) 0 = Return st
                       ∧ getTemp prov st = Raise e) :
  economiser prov f1 f2 s
    = (Raise e, <["economiser_present" := PyBool true]> s)
  ∧ (effectiveness s).2 = s
  ∧ (∀ heat_supplied : Qc, (efficiency heat_supplied s).2 = s)
  ∧ (actual_heat s).2 = s
  ∧ (∀ final_temp eff : Qc, s !! "boiler_heat" = None →
       superheater_body final_temp eff s = (Raise PreconditionError_boiler, s))
  ∧ (∀ (Tp1 eff : Qc) (Tp2 : option Qc),
       s !! "economiser_present" = None → py_not Tp2 = true →
       air_preheater_body Tp1 Tp2 eff s = (Raise MissingParameterError, s)).
Proof.
  split_and!.
  - rewrite economiser_unfold. simpl. rewrite Hinlet.
    destruct Hlookup as [-> | (st & -> & ->)]; done.
  - apply pure_effectiveness.
  - intros hs. apply pure_efficiency.
  - apply pure_actual_heat.
  - intros ft eff Hb. by apply superheater_body_requires_boiler.
  - intros Tp1 eff Tp2 He Hn.
    by apply air_preheater_body_raise, resolve_Tp2_missing.
Qed.

Lemma economiser_failure_keeps_flag_witness :
  economiser failing_provider (Qc_of_Z 400) (Qc_of_Z 300) plant100
    = (Raise InvalidStateError,
       <["economiser_present" := PyBool true]> plant100)
  ∧ (effectiveness plant100).2 = plant100.
Proof.
  pose proof (economiser_failure_keeps_flag failing_provider plant100
                (Qc_of_Z 400) (Qc_of_Z 300) (PyNum (Qc_of_Z 100))
                InvalidStateError eq_refl (or_introl eq_refl))
    as (Hecon & Heff & _).
  exact (conj Hecon Heff).
Defined.

(** C6: without economiser and without outlet temperature
    [air_preheater] is to fail with [MissingParameterError], and with an
    outlet temperature it is to set [air_heat].  As written,
    [Boiler(100).air_preheater(20)] raises [TypeError] at the efficiency
    check, and so does [air_preheater(20, 30)], which leaves [air_heat] at
    0; past the check, an outlet temperature of 0 counts as not supplied. *)
Theorem air_preheater_stops_at_check :
  air_preheater (Qc_of_Z 20) None 1 plant100 = (Raise TypeError, plant100)
  ∧ TypeError ≠ MissingParameterError
  ∧ air_preheater (Qc_of_Z 20) (Some (Qc_of_Z 30)) 1 plant100
    = (Raise TypeError, plant100)
  ∧ plant100 !! "air_heat" = Some (PyNum 0)
  ∧ air_preheater_body (Qc_of_Z 20) (Some 0) 1 plant100
    = (Raise MissingParameterError, plant100).
Proof.
  split_and!.
  - apply air_preheater_raises.
  - done.
  - apply air_preheater_raises.
  - done.
  - by apply air_preheater_body_raise, resolve_Tp2_missing.
Qed.

(** C7, as stated: for all flue temperatures the two argument orders
    leave the same [flue_T1] and [flue_T2], with [flue_T2 <= flue_T1].
    Not so when one of them is the float NaN: [f2 > f1] is then false in
    either order, nothing is swapped, and [economiser(nan, 300.0)] stores
    [flue_T1 = nan], [flue_T2 = 300.0] where [economiser(300.0, nan)]
    stores [flue_T1 = 300.0], [flue_T2 = nan]; in neither is
    [flue_T2 <= flue_T1]. *)
Lemma economiser_nan_order_matters :
  flue_order_float nan 300 = (nan, 300%float)
  ∧ flue_order_float 300 nan = (300%float, nan)
  ∧ flue_order_float nan 300 ≠ flue_order_float 300 nan
  ∧ PrimFloat.eqb (flue_order_float nan 300).1 (flue_order_float 300 nan).1
    = false
  ∧ PrimFloat.leb (flue_order_float nan 300).2 (flue_order_float nan 300).1
    = false
  ∧ PrimFloat.leb (flue_order_float 300 nan).2 (flue_order_float 300 nan).1
    = false.
Proof.
  split_and!; try reflexivity.
  intros H. apply (f_equal (λ p, PrimFloat.is_nan p.1)) in H.
  vm_compute in H. discriminate H.
Qed.

(** C7, amended: for flue temperatures that are ordered (neither is
    NaN), [economiser(f1, f2)] and [economiser(f2, f1)] give the same
    outcome and the same instance, so an argument order is never
    rejected where the other is accepted; and after a call that returns,
    [flue_T1] and [flue_T2] hold the two arguments, the larger one in
    [flue_T1]. *)
Theorem economiser_order_independent (prov : provider) (s : Boiler)
    (f1 f2 : Qc) :
  economiser prov f1 f2 s = economiser prov f2 f1 s
  ∧ ((economiser prov f1 f2 s).1 = Return () →
     ∃ hot cold : Qc,
       (economiser prov f1 f2 s).2 !! "flue_T1" = Some (PyNum hot)
       ∧ (economiser prov f1 f2 s).2 !! "flue_T2" = Some (PyNum cold)
       ∧ (economiser prov f2 f1 s).2 !! "flue_T1" = Some (PyNum hot)
       ∧ (economiser prov f2 f1 s).2 !! "flue_T2" = Some (PyNum cold)
       ∧ (economiser prov f1 f2 s).2 !! "econ_T2"
         = (economiser prov f2 f1 s).2 !! "econ_T2"
       ∧ is_Some ((economiser prov f1 f2 s).2 !! "econ_T2")
       ∧ cold ≤ hot
       ∧ ((hot, cold) = (f1, f2) ∨ (hot, cold) = (f2, f1))).
Proof.
  assert (economiser prov f1 f2 s = economiser prov f2 f1 s) as Hsame.
  { rewrite !economiser_unfold. unfold economiser_done.
    by rewrite (flue_order_comm f2 f1). }
  split; [done|]. rewrite <-Hsame. rewrite economiser_unfold. simpl.
  destruct (inlet_pressure s).1 as [P1|]; [|done].
  destruct (State_P prov (num P1) 0) as [st|]; [|done].
  destruct (getTemp prov st) as [t|]; [|done].
  intros _. exists (flue_order f1 f2).1, (flue_order f1 f2).2.
  unfold economiser_done. simpl. attrs.
  split_and!; [done|done|done|done|done|by eexists| |].
  - apply flue_order_sorted.
  - rewrite <-surjective_pairing. apply flue_order_inputs.
Qed.

(** The scenario of the specification, with a provider that answers:
    [economiser(300, 400)] returns, and both argument orders leave
    [flue_T1 = 400] and [flue_T2 = 300]. *)
Lemma economiser_order_independent_witness :
  (economiser toy_provider (Qc_of_Z 300) (Qc_of_Z 400) plant100).1 = Return ()
  ∧ economiser toy_provider (Qc_of_Z 300) (Qc_of_Z 400) plant100
    = economiser toy_provider (Qc_of_Z 400) (Qc_of_Z 300) plant100
  ∧ ∃ hot cold : Qc,
      (economiser toy_provider (Qc_of_Z 300) (Qc_of_Z 400) plant100).2
        !! "flue_T1" = Some (PyNum hot)
      ∧ (economiser toy_provider (Qc_of_Z 300) (Qc_of_Z 400) plant100).2
        !! "flue_T2" = Some (PyNum cold)
      ∧ cold ≤ hot
      ∧ ((hot, cold) = (Qc_of_Z 300, Qc_of_Z 400)
         ∨ (hot, cold) = (Qc_of_Z 400, Qc_of_Z 300)).
Proof.
  pose proof (economiser_order_independent toy_provider plant100
                (Qc_of_Z 300) (Qc_of_Z 400)) as (Hsame & Hret).
  destruct (Hret eq_refl) as (hot & cold & H1 & H2 & _ & _ & _ & _ & Hle & Hin).
  split; [reflexivity|]. split; [exact Hsame|].
  exists hot, cold. exact (conj H1 (conj H2 (conj Hle Hin))).
Defined.

Lemma economiser_400_300 :
  (economiser toy_provider (Qc_of_Z 300) (Qc_of_Z 400) plant100).2
      !! "flue_T1" = Some (PyNum (Qc_of_Z 400))
  ∧ (economiser toy_provider (Qc_of_Z 300) (Qc_of_Z 400) plant100).2
      !! "flue_T2" = Some (PyNum (Qc_of_Z 300)).
Proof. split; reflexivity. Qed.

(** C8: after the boiler stage [superheater] is to set [superheater_heat]
    and to move [final_temp] to its argument.  As written it stops at the
    efficiency check: on an instance that holds what a completed boiler
    stage leaves (saturation at 120), targets of 100 and of 200 both raise
    [TypeError]; [final_temp] stays at 120 and [superheater_heat] at 0. *)
Theorem superheater_stops_at_check :
  superheater (Qc_of_Z 100) 1 boiled100 = (Raise TypeError, boiled100)
  ∧ superheater (Qc_of_Z 200) 1 boiled100 = (Raise TypeError, boiled100)
  ∧ boiled100 !! "final_temp" = Some (PyNum (Qc_of_Z 120))
  ∧ boiled100 !! "superheater_heat" = Some (PyNum 0).
Proof.
  split_and!; [apply superheater_raises..|done|done].
Qed.

(** C9: on every instance reached from the constructor by calls of the
    public methods (returning or raising), and also on every instance the
    statements of the stages reach when they are entered past the
    efficiency check, [economiser_heat] is 0 and the other three terms
    exist, so that [actual_heat()] returns
    [boiler_heat - (air_heat + pump_work + superheater_heat)] and
    [efficiency(h)] that difference divided by [h], wherever [boiler_heat]
    is there. *)
Theorem economiser_heat_always_zero (prov : provider) (s : Boiler)
    (Hreach : reachable (invoke prov) s
              ∨ reachable (invoke_past_check prov) s) :
  s !! "economiser_heat" = Some (PyNum 0)
  ∧ ∃ ah pw sh : pyobj,
      s !! "air_heat" = Some ah ∧ s !! "pump_work" = Some pw
      ∧ s !! "superheater_heat" = Some sh
      ∧ actual_heat s =
          (match s !! "boiler_heat" with
           | Some bh => Return (num bh - (num ah + num pw + num sh))
           | None => Raise (AttributeError "boiler_heat")
           end, s)
      ∧ ∀ heat_supplied : Qc,
          efficiency heat_supplied s =
            (match s !! "boiler_heat" with
             | Some bh =>
                 py_div (num bh - (num ah + num pw + num sh)) heat_supplied
             | None => Raise PreconditionError_boiler
             end, s).
Proof.
  assert (accounted s) as Hacc.
  { destruct Hreach as [Hreach|Hreach];
      [by eapply reachable_accounted|by eapply reachable_past_check_accounted]. }
  split; [apply Hacc|by apply accounted_heat].
Qed.

(** An instance on which the balance is there: [Boiler(100)] after the
    statements of [boiler] with efficiency 1 and of [superheater] to 200
    with efficiency 1/2, then a call of [economiser].  [economiser_heat]
    is 0 and [actual_heat()] returns the boiler heat less the three
    terms. *)
Lemma economiser_heat_always_zero_witness :
  ∃ s : Boiler,
    s = invoke_past_check toy_provider
          (CallEconomiser (Qc_of_Z 400) (Qc_of_Z 300))
          (invoke_past_check toy_provider
             (CallSuperheater (Qc_of_Z 200) (Q2Qc (1 # 2)))
             (invoke_past_check toy_provider (CallBoiler 1) plant100))
    ∧ s !! "economiser_heat" = Some (PyNum 0)
    ∧ ∃ bh ah pw sh : pyobj,
        s !! "boiler_heat" = Some bh ∧ s !! "air_heat" = Some ah
        ∧ s !! "pump_work" = Some pw ∧ s !! "superheater_heat" = Some sh
        ∧ num sh ≠ 0
        ∧ actual_heat s = (Return (num bh - (num ah + num pw + num sh)), s)
        ∧ efficiency (Qc_of_Z 1000) s
          = (Return ((num bh - (num ah + num pw + num sh)) / Qc_of_Z 1000), s).
Proof.
  eexists. split; [reflexivity|].
  match goal with |- ?s !! _ = _ ∧ _ =>
    destruct (economiser_heat_always_zero toy_provider s)
      as (Hzero & ah & pw & sh & Hah & Hpw & Hsh & Hheat & Heff) end.
  { right. apply reachable_step, reachable_step, reachable_step, reachable_init. }
  split; [exact Hzero|].
  eexists _, ah, pw, sh. split; [reflexivity|].
  split; [exact Hah|]. split; [exact Hpw|]. split; [exact Hsh|].
  split.
  - intros H0. revert Hsh. vm_compute. intros [= <-]. discriminate H0.
  - split; [exact Hheat|]. exact (Heff (Qc_of_Z 1000)).
Defined.

(** The same holds of the statements of the stages themselves: entered
    past the efficiency check they still never assign [economiser_heat]. *)
Lemma economiser_heat_zero_past_check (prov : provider) (s : Boiler) :
  reachable (invoke_past_check prov) s →
  s !! "economiser_heat" = Some (PyNum 0)
  ∧ ∀ bh : pyobj, s !! "boiler_heat" = Some bh →
      ∃ ah pw sh : pyobj,
        s !! "air_heat" = Some ah ∧ s !! "pump_work" = Some pw
        ∧ s !! "superheater_heat" = Some sh
        ∧ actual_heat s = (Return (num bh - (num ah + num pw + num sh)), s).
Proof.
  intros Hreach.
  pose proof (reachable_past_check_accounted prov s Hreach) as Hacc.
  split; [apply Hacc|]. intros bh Hbh.
  destruct (accounted_heat s Hacc) as (ah & pw & sh & Ha & Hp & Hs & Hheat & _).
  exists ah, pw, sh. by rewrite Hheat, Hbh.
Qed.

(** The statements that follow the check in [feed_pump], [air_preheater]
    and [superheater] divide by the efficiency: 0 passes the range test of
    [_check_eff], and run with efficiency 0 the three bodies raise
    [ZeroDivisionError] at [1/eff], after their assignments. *)
Lemma zero_efficiency_divides_after_assignment (s : Boiler)
    (P2 Tp1 final_temp out : Qc) (Tp2 : option Qc) (ip bh cur : pyobj) :
  s !! "input_pressure" = Some ip →
  resolve_Tp2 Tp2 s = (Return (Some out), s) →
  s !! "boiler_heat" = Some bh →
  s !! "final_temp" = Some cur →
  call _check_eff [ArgNum 0] = Return 0
  ∧ feed_pump_body P2 0 s
    = (Raise ZeroDivisionError, feed_pump_assigned P2 ip s)
  ∧ air_preheater_body Tp1 Tp2 0 s
    = (Raise ZeroDivisionError, <["air_heat" := PyNum (cpair * (out - Tp1))]> s)
  ∧ superheater_body final_temp 0 s
    = (Raise ZeroDivisionError, superheater_assigned final_temp cur s).
Proof.
  intros Hip Hout Hbh Hcur. split_and!.
  - reflexivity.
  - by rewrite (feed_pump_body_spec _ _ _ _ Hip).
  - by rewrite (air_preheater_body_spec _ _ _ _ _ Hout).
  - by rewrite (superheater_body_spec _ _ _ _ _ Hbh Hcur).
Qed.

(** C10: with efficiency 0 the call is to fail with a division by zero,
    in [feed_pump] and [air_preheater] after the instance has been
    changed.  As written the call never gets that far:
    [Boiler(100).feed_pump(150, 0)], [air_preheater(20, 30, 0)] and
    [superheater(200, 0)] raise [TypeError] at the efficiency check and
    leave the instance as it was, although the statements of [feed_pump]
    past the check would raise [ZeroDivisionError] with [pump_present]
    assigned. *)
Theorem zero_efficiency_call_raises_TypeError :
  feed_pump (Qc_of_Z 150) 0 plant100 = (Raise TypeError, plant100)
  ∧ air_preheater (Qc_of_Z 20) (Some (Qc_of_Z 30)) 0 plant100
    = (Raise TypeError, plant100)
  ∧ superheater (Qc_of_Z 200) 0 boiled100 = (Raise TypeError, boiled100)
  ∧ TypeError ≠ ZeroDivisionError
  ∧ (feed_pump_body (Qc_of_Z 150) 0 plant100).1 = Raise ZeroDivisionError
  ∧ (feed_pump_body (Qc_of_Z 150) 0 plant100).2 !! "pump_present"
    = Some (PyBool true)
  ∧ plant100 !! "pump_present" = None.
Proof.
  split_and!.
  - apply feed_pump_raises.
  - apply air_preheater_raises.
  - apply superheater_raises.
  - done.
  - by rewrite (feed_pump_body_spec _ _ _ (PyNum (Qc_of_Z 100))).
  - by rewrite (feed_pump_body_spec _ _ _ (PyNum (Qc_of_Z 100))).
  - done.
Qed.

(** * Further properties of the code *)

(** ** More on [economiser] and [effectiveness] *)

(** The inlet pressure is read from three attributes only. *)
Lemma inlet_pressure_agree (s s' : Boiler) :
  s' !! "pump_present" = s !! "pump_present" →
  s' !! "output_pressure_pump" = s !! "output_pressure_pump" →
  s' !! "input_pressure" = s !! "input_pressure" →
  (inlet_pressure s').1 = (inlet_pressure s).1.
Proof.
  intros Hp Ho Hi. unfold inlet_pressure. run. rewrite Hp.
  case_bool_decide; simpl; [rewrite Ho|rewrite Hi]; by case_match.
Qed.

(** A call that returns went through both lookups. *)
Lemma economiser_returns_inv (prov : provider) (f1 f2 : Qc) (s : Boiler) :
  (economiser prov f1 f2 s).1 = Return () →
  ∃ (P1 : pyobj) (st : state prov) (t : Qc),
    (inlet_pressure s).1 = Return P1
    ∧ State_P prov (num P1) 0 = Return st
    ∧ getTemp prov st = Return t
    ∧ (economiser prov f1 f2 s).2 = economiser_done t f1 f2 s.
Proof.
  rewrite economiser_unfold. simpl.
  destruct (inlet_pressure s).1 as [P1|]; [|done].
  destruct (State_P prov (num P1) 0) as [st|] eqn:Hst; [|done].
  destruct (getTemp prov st) as [t|] eqn:Ht; [|done].
  intros _. by exists P1, st, t.
Qed.

Lemma economiser_keeps (prov : provider) (f1 f2 : Qc) (name : string) :
  name ∉ economiser_attrs → keeps name (economiser prov f1 f2).
Proof.
  unfold economiser_attrs. rewrite !not_elem_of_cons.
  intros (? & ? & ? & ? & ? & _) s. rewrite economiser_unfold. simpl.
  destruct (inlet_pressure s).1 as [P1|];
    [|simpl; by rewrite lookup_insert_ne by congruence].
  destruct (State_P prov (num P1) 0) as [st|];
    [|simpl; by rewrite lookup_insert_ne by congruence].
  destruct (getTemp prov st) as [t|];
    [|simpl; by rewrite lookup_insert_ne by congruence].
  unfold economiser_done. simpl. by rewrite !lookup_insert_ne by congruence.
Qed.

Lemma economiser_done_twice (t f1 f2 g1 g2 : Qc) (s : Boiler) :
  economiser_done t g1 g2 (economiser_done t f1 f2 s)
  = economiser_done t g1 g2 s.
Proof.
  apply map_eq. intros name. unfold economiser_done. simpl.
  rewrite !lookup_insert. by repeat case_decide.
Qed.

Lemma economiser_after_economiser (prov : provider) (s : Boiler)
    (f1 f2 g1 g2 : Qc) :
  economiser prov g1 g2 (economiser prov f1 f2 s).2 = economiser prov g1 g2 s.
Proof.
  assert ((inlet_pressure (economiser prov f1 f2 s).2).1 = (inlet_pressure s).1)
    as Hin.
  { apply inlet_pressure_agree; apply economiser_keeps;
      unfold economiser_attrs; rewrite !not_elem_of_cons;
      split_and!; try done; apply not_elem_of_nil. }
  rewrite (economiser_unfold prov g1 g2 (economiser prov f1 f2 s).2).
  rewrite (economiser_unfold prov g1 g2 s). simpl. rewrite Hin.
  rewrite (economiser_unfold prov f1 f2 s). simpl.
  destruct (inlet_pressure s).1 as [P1|]; simpl; [|by rewrite insert_insert_eq].
  destruct (State_P prov (num P1) 0) as [st|]; simpl;
    [|by rewrite insert_insert_eq].
  destruct (getTemp prov st) as [t|]; simpl; [|by rewrite insert_insert_eq].
  by rewrite economiser_done_twice.
Qed.

(** X3: a repeated call of [economiser] that returns forgets the earlier
    one: made on the instance an earlier [economiser(f1, f2)] left
    (whether that earlier call returned or raised), a call
    [economiser(g1, g2)] that returns leaves the very instance it leaves
    without the earlier call, with all five attributes of the economiser
    overwritten. *)
Theorem economiser_last_call_wins (prov : provider) (s : Boiler)
    (f1 f2 g1 g2 : Qc)
    (Hret : (economiser prov g1 g2 (economiser prov f1 f2 s).2).1 = Return ()) :
  economiser prov g1 g2 (economiser prov f1 f2 s).2 = economiser prov g1 g2 s
  ∧ (economiser prov g1 g2 s).1 = Return ().
Proof.
  rewrite economiser_after_economiser in Hret.
  split; [apply economiser_after_economiser|exact Hret].
Qed.

Lemma economiser_last_call_wins_witness :
  economiser toy_provider (Qc_of_Z 500) (Qc_of_Z 350)
    (economiser toy_provider (Qc_of_Z 400) (Qc_of_Z 300) plant100).2
  = economiser toy_provider (Qc_of_Z 500) (Qc_of_Z 350) plant100
  ∧ (economiser toy_provider (Qc_of_Z 500) (Qc_of_Z 350) plant100).1
    = Return ().
Proof.
  apply (economiser_last_call_wins toy_provider plant100
           (Qc_of_Z 400) (Qc_of_Z 300) (Qc_of_Z 500) (Qc_of_Z 350)).
  reflexivity.
Defined.

(** X5: a call of [economiser] that raised leaves the economiser marked
    as fitted without its temperatures: on an instance that had no
    [econ_T2], [effectiveness()] then passes its guard and raises
    [AttributeError] for [econ_T2], not the [ValueError] of the guard. *)
Theorem effectiveness_after_failed_economiser (prov : provider) (s : Boiler)
    (f1 f2 : Qc) (e : exn)
    (Hraise : (economiser prov f1 f2 s).1 = Raise e)
    (Hnew : s !! "econ_T2" = None) :
  effectiveness (economiser prov f1 f2 s).2
  = (Raise (AttributeError "econ_T2"), (economiser prov f1 f2 s).2).
Proof.
  assert ((economiser prov f1 f2 s).2 = <["economiser_present" := PyBool true]> s)
    as ->.
  { rewrite economiser_unfold in Hraise |- *. simpl in *.
    destruct (inlet_pressure s).1 as [P1|]; [|done].
    destruct (State_P prov (num P1) 0) as [st|]; [|done].
    destruct (getTemp prov st); [discriminate Hraise|done]. }
  unfold effectiveness.
  erewrite bind_return by (eapply hasattr_Some; by attrs). simpl.
  apply bind_raise, getattr_None. by attrs.
Qed.

Lemma effectiveness_after_failed_economiser_witness :
  effectiveness
    (economiser failing_provider (Qc_of_Z 400) (Qc_of_Z 300) plant100).2
  = (Raise (AttributeError "econ_T2"),
     (economiser failing_provider (Qc_of_Z 400) (Qc_of_Z 300) plant100).2).
Proof.
  apply (effectiveness_after_failed_economiser failing_provider plant100
           (Qc_of_Z 400) (Qc_of_Z 300) InvalidStateError); reflexivity.
Defined.

(** ** Sessions: what any sequence of calls can reach *)

Lemma invoke_other (prov : provider) (c : invocation) (s : Boiler) :
  (∀ f1 f2, c ≠ CallEconomiser f1 f2) → invoke prov c s = s.
Proof.
  intros Hc. destruct c; unfold invoke.
  - by rewrite feed_pump_raises.
  - by destruct (Hc f1 f2).
  - apply pure_effectiveness.
  - by rewrite air_preheater_raises.
  - by rewrite boiler_raises.
  - by rewrite superheater_raises.
  - apply pure_efficiency.
  - apply pure_actual_heat.
Qed.

Lemma run_calls_shape (prov : provider) (P1 : Qc) (calls : list invocation) :
  run_calls prov calls (__init__ P1)
  = match last_economiser calls with
    | None => __init__ P1
    | Some (f1, f2) => (economiser prov f1 f2 (__init__ P1)).2
    end.
Proof.
  induction calls as [|c calls IH] using rev_ind; [done|].
  unfold run_calls, last_economiser in *. rewrite !foldl_snoc, IH.
  destruct c as [| g1 g2 | | | | | |];
    try (rewrite invoke_other by done; done).
  unfold invoke.
  destruct (foldl _ None calls) as [[f1 f2]|]; [|done].
  by rewrite economiser_after_economiser.
Qed.

Lemma run_calls_untouched (prov : provider) (P1 : Qc) (calls : list invocation)
    (name : string) :
  name ∉ economiser_attrs →
  run_calls prov calls (__init__ P1) !! name = __init__ P1 !! name.
Proof.
  intros Hn. rewrite run_calls_shape.
  destruct (last_economiser calls) as [[f1 f2]|]; [|done].
  by apply economiser_keeps.
Qed.

Lemma not_economiser_attr (name : string) :
  bool_decide (name ∈ economiser_attrs) = false → name ∉ economiser_attrs.
Proof. by intros H%bool_decide_eq_false. Qed.

(** X8: no sequence of calls on a new instance ever produces a heat
    balance: [pump_work], [air_heat] and [superheater_heat] stay 0,
    [boiler_heat] never exists, [efficiency(h)] always raises the
    [ValueError] of its guard and [actual_heat()] always raises
    [AttributeError]. *)
Theorem session_has_no_heat_balance (prov : provider) (P1 heat_supplied : Qc)
    (calls : list invocation) :
  run_calls prov calls (__init__ P1) !! "pump_work" = Some (PyNum 0)
  ∧ run_calls prov calls (__init__ P1) !! "air_heat" = Some (PyNum 0)
  ∧ run_calls prov calls (__init__ P1) !! "superheater_heat" = Some (PyNum 0)
  ∧ run_calls prov calls (__init__ P1) !! "boiler_heat" = None
  ∧ efficiency heat_supplied (run_calls prov calls (__init__ P1))
    = (Raise PreconditionError_boiler, run_calls prov calls (__init__ P1))
  ∧ actual_heat (run_calls prov calls (__init__ P1))
    = (Raise (AttributeError "boiler_heat"),
       run_calls prov calls (__init__ P1)).
Proof.
  assert (run_calls prov calls (__init__ P1) !! "boiler_heat" = None) as Hb
    by (by rewrite run_calls_untouched by by apply not_economiser_attr).
  split_and!; try (by rewrite run_calls_untouched by by apply not_economiser_attr).
  - by apply efficiency_requires_boiler.
  - by apply actual_heat_unguarded.
Qed.

(** X9: in any sequence of calls on [Boiler(P1)], the inlet pressure of
    the economiser stays the pressure [P1] of the constructor, whatever
    calls of [feed_pump] were made before: a call of [economiser] that
    returns has asked the provider for the saturation temperature at
    [P1], and [econ_T1] is the temperature the provider gave there. *)
Theorem session_economiser_at_input_pressure (prov : provider) (P1 f1 f2 : Qc)
    (calls : list invocation)
    (Hret : (economiser prov f1 f2 (run_calls prov calls (__init__ P1))).1
            = Return ()) :
  (inlet_pressure (run_calls prov calls (__init__ P1))).1 = Return (PyNum P1)
  ∧ ∃ (st : state prov) (t : Qc),
      State_P prov P1 0 = Return st
      ∧ getTemp prov st = Return t
      ∧ (economiser prov f1 f2 (run_calls prov calls (__init__ P1))).2
          !! "econ_T1" = Some (PyNum t).
Proof.
  assert ((inlet_pressure (run_calls prov calls (__init__ P1))).1
          = Return (PyNum P1)) as Hin.
  { rewrite (inlet_pressure_agree (__init__ P1)); [done|..];
      by rewrite run_calls_untouched by by apply not_economiser_attr. }
  split; [done|].
  destruct (economiser_returns_inv _ _ _ _ Hret)
    as (P1' & st & t & HP & Hst & Ht & ->).
  rewrite Hin in HP. injection HP as <-.
  exists st, t. split_and!; [done|done|]. unfold economiser_done. by attrs.
Qed.

Lemma session_economiser_at_input_pressure_witness :
  (inlet_pressure
     (run_calls toy_provider
        [CallFeedPump (Qc_of_Z 150) 1;
         CallEconomiser (Qc_of_Z 400) (Qc_of_Z 300)]
        (__init__ (Qc_of_Z 100)))).1 = Return (PyNum (Qc_of_Z 100))
  ∧ ∃ (st : state toy_provider) (t : Qc),
      State_P toy_provider (Qc_of_Z 100) 0 = Return st
      ∧ getTemp toy_provider st = Return t
      ∧ (economiser toy_provider (Qc_of_Z 300) (Qc_of_Z 400)
           (run_calls toy_provider
              [CallFeedPump (Qc_of_Z 150) 1;
               CallEconomiser (Qc_of_Z 400) (Qc_of_Z 300)]
              (__init__ (Qc_of_Z 100)))).2
          !! "econ_T1" = Some (PyNum t).
Proof.
  apply (session_economiser_at_input_pressure toy_provider (Qc_of_Z 100)
           (Qc_of_Z 300) (Qc_of_Z 400)
           [CallFeedPump (Qc_of_Z 150) 1;
            CallEconomiser (Qc_of_Z 400) (Qc_of_Z 300)]).
  reflexivity.
Defined.

(** ** The statements of the stages past the efficiency check *)



Lemma resolve_Tp2_no_flue (s : Boiler) (Tp2 : option Qc) (flag : pyobj) :
  s !! "economiser_present" = Some flag → s !! "flue_T2" = None →
  resolve_Tp2 Tp2 s = (Raise (AttributeError "flue_T2"), s).
Proof.
  intros He Hv. unfold resolve_Tp2.
  rewrite (bind_return _ _ _ _ _ (hasattr_Some _ _ _ He)).
  by rewrite (bind_raise _ _ _ _ _ (getattr_None _ _ Hv)).
Qed.

(** X12: on an instance marked as having an economiser, the statements
    of [air_preheater] do not look at the outlet temperature the caller
    passes: they give the same outcome and the same instance for every
    value of it, passed or not.  The outlet temperature they go on with
    is the attribute [flue_T2]; where that attribute is missing (an
    economiser whose lookup failed) they raise [AttributeError] and
    change nothing. *)
Theorem air_preheater_body_outlet_overridden (s : Boiler) (Tp1 eff : Qc)
    (Tp2 Tp2' : option Qc) (flag : pyobj)
    (Hecon : s !! "economiser_present" = Some flag) :
  air_preheater_body Tp1 Tp2 eff s = air_preheater_body Tp1 Tp2' eff s
  ∧ (∀ v : pyobj, s !! "flue_T2" = Some v →
       resolve_Tp2 Tp2 s = (Return (Some (num v)), s))
  ∧ (s !! "flue_T2" = None →
     air_preheater_body Tp1 Tp2 eff s = (Raise (AttributeError "flue_T2"), s)).
Proof.
  split_and!.
  - unfold air_preheater_body. destruct (s !! "flue_T2") as [v|] eqn:Hv.
    + by rewrite !(bind_return _ _ _ _ _
                     (resolve_Tp2_economiser _ _ _ _ Hecon Hv)).
    + by rewrite !(bind_raise _ _ _ _ _ (resolve_Tp2_no_flue _ _ _ Hecon Hv)).
  - intros v Hv. by eapply resolve_Tp2_economiser.
  - intros Hv. by eapply air_preheater_body_raise, resolve_Tp2_no_flue.
Qed.

Lemma air_preheater_body_outlet_overridden_witness :
  air_preheater_body (Qc_of_Z 20) (Some (Qc_of_Z 30)) 1
    (economiser toy_provider (Qc_of_Z 300) (Qc_of_Z 400) plant100).2
  = air_preheater_body (Qc_of_Z 20) None 1
      (economiser toy_provider (Qc_of_Z 300) (Qc_of_Z 400) plant100).2
  ∧ resolve_Tp2 (Some (Qc_of_Z 30))
      (economiser toy_provider (Qc_of_Z 300) (Qc_of_Z 400) plant100).2
    = (Return (Some (num (PyNum (Qc_of_Z 300)))),
       (economiser toy_provider (Qc_of_Z 300) (Qc_of_Z 400) plant100).2).
Proof.
  pose proof (air_preheater_body_outlet_overridden
                (economiser toy_provider (Qc_of_Z 300) (Qc_of_Z 400) plant100).2
                (Qc_of_Z 20) 1 (Some (Qc_of_Z 30)) None (PyBool true) eq_refl)
    as (Hsame & Hflue & _).
  exact (conj Hsame (Hflue (PyNum (Qc_of_Z 300)) eq_refl)).
Defined.

(** X13: without economiser, the statements of [air_preheater] raise the
    [ValueError] for a missing outlet temperature exactly when no outlet
    temperature is passed or the one passed is 0; in that case the
    instance is not changed. *)
Theorem air_preheater_body_missing_outlet (s : Boiler) (Tp1 eff : Qc)
    (Tp2 : option Qc)
    (Hnone : s !! "economiser_present" = None) :
  ((air_preheater_body Tp1 Tp2 eff s).1 = Raise MissingParameterError
   ↔ Tp2 = None ∨ Tp2 = Some 0)
  ∧ (Tp2 = None ∨ Tp2 = Some 0 → (air_preheater_body Tp1 Tp2 eff s).2 = s).
Proof.
  assert (Tp2 = None ∨ Tp2 = Some 0 →
          air_preheater_body Tp1 Tp2 eff s = (Raise MissingParameterError, s))
    as Hmiss.
  { intros [-> | ->]; by apply air_preheater_body_raise, resolve_Tp2_missing. }
  split; [split|]; [|by intros ->%Hmiss|by intros ->%Hmiss].
  destruct Tp2 as [out|]; [|by left].
  destruct (decide (out = 0)) as [->|Hout]; [by right|].
  rewrite (air_preheater_body_spec _ _ _ _ _ (resolve_Tp2_supplied _ _ Hnone Hout)).
  simpl. by repeat case_bool_decide.
Qed.

Lemma air_preheater_body_missing_outlet_witness :
  ((air_preheater_body (Qc_of_Z 20) (Some 0) 1 plant100).1
     = Raise MissingParameterError
   ↔ Some 0 = None ∨ Some 0 = Some 0)
  ∧ (Some 0 = None ∨ Some 0 = Some 0 →
     (air_preheater_body (Qc_of_Z 20) (Some 0) 1 plant100).2 = plant100).
Proof.
  apply (air_preheater_body_missing_outlet plant100 (Qc_of_Z 20) 1 (Some 0)).
  reflexivity.
Defined.

Lemma superheater_body_returns_inv (s : Boiler) (final_temp eff : Qc) :
  (superheater_body final_temp eff s).1 = Return () →
  ∃ bh cur : pyobj,
    s !! "boiler_heat" = Some bh ∧ s !! "final_temp" = Some cur ∧ eff ≠ 0.
Proof.
  intros Hret.
  destruct (s !! "boiler_heat") as [bh|] eqn:Hb;
    [|by rewrite (superheater_body_requires_boiler _ _ _ Hb) in Hret].
  destruct (s !! "final_temp") as [cur|] eqn:Hc.
  - exists bh, cur. split_and!; [done|done|]. intros ->.
    by rewrite (superheater_body_spec _ _ _ _ _ Hb Hc) in Hret.
  - unfold superheater_body in Hret.
    rewrite (bind_return _ _ _ _ _ (hasattr_Some _ _ _ Hb)) in Hret.
    simpl in Hret.
    by rewrite (bind_raise _ _ _ _ _ (getattr_None _ _ Hc)) in Hret.
Qed.

(** What a returning run leaves: [final_temp] is the target, and
    [superheater_heat] is a value [h] that depends on the target, the
    efficiency and the [final_temp] found, and on nothing else. *)
Lemma superheater_body_returns (s : Boiler) (final_temp eff : Qc)
    (bh cur : pyobj) :
  s !! "boiler_heat" = Some bh → s !! "final_temp" = Some cur → eff ≠ 0 →
  superheater_body final_temp eff s
  = (Return (),
     <["superheater_heat" :=
         PyNum (if bool_decide (eff = 1)
                then (if bool_decide (final_temp < num cur) then 0
                      else cpwater * (final_temp - num cur))
                else (if bool_decide (final_temp < num cur) then 0
                      else cpwater * (final_temp - num cur)) * (1 / eff))]>
       (<["final_temp" := PyNum final_temp]> s)).
Proof.
  intros Hb Hc He. rewrite (superheater_body_spec _ _ _ _ _ Hb Hc). simpl.
  rewrite (bool_decide_eq_false_2 (eff = 0)) by done.
  unfold superheater_assigned.
  case_bool_decide; f_equal; apply map_eq; intros name;
    rewrite !lookup_insert; repeat case_decide; by simplify_eq.
Qed.

(** X15: the statements of [superheater] overwrite [superheater_heat],
    they do not add to it: when a run to the target [t1] returned and a
    second run to [t2] returns, the instance left is the one that the
    second run leaves on the first instance with only [final_temp] set to
    [t1]; what the first run recorded as [superheater_heat], and where
    the boiler stage had left [final_temp], leave no trace. *)
Theorem superheater_body_overwrites (s : Boiler) (t1 t2 e1 e2 : Qc)
    (Hret1 : (superheater_body t1 e1 s).1 = Return ())
    (Hret2 : (superheater_body t2 e2 (superheater_body t1 e1 s).2).1
             = Return ()) :
  superheater_body t2 e2 (superheater_body t1 e1 s).2
  = superheater_body t2 e2 (<["final_temp" := PyNum t1]> s)
  ∧ (superheater_body t2 e2 (superheater_body t1 e1 s).2).2 !! "final_temp"
    = Some (PyNum t2).
Proof.
  destruct (superheater_body_returns_inv _ _ _ Hret1) as (bh & cur & Hb & Hc & He1).
  destruct (superheater_body_returns_inv _ _ _ Hret2) as (_ & _ & _ & _ & He2).
  rewrite (superheater_body_returns s t1 e1 bh cur Hb Hc He1). simpl.
  rewrite (superheater_body_returns _ t2 e2 bh (PyNum t1)) by (by attrs || done).
  rewrite (superheater_body_returns (<["final_temp" := PyNum t1]> s)
             t2 e2 bh (PyNum t1)) by (by attrs || done).
  simpl. split; [|by attrs].
  f_equal. apply map_eq. intros name.
  rewrite !lookup_insert. repeat case_decide; by simplify_eq.
Qed.

Lemma superheater_body_overwrites_witness :
  superheater_body (Qc_of_Z 120) 1
    (superheater_body (Qc_of_Z 200) (Q2Qc (1 # 2)) boiled100).2
  = superheater_body (Qc_of_Z 120) 1
      (<["final_temp" := PyNum (Qc_of_Z 200)]> boiled100)
  ∧ (superheater_body (Qc_of_Z 120) 1
       (superheater_body (Qc_of_Z 200) (Q2Qc (1 # 2)) boiled100).2).2
      !! "final_temp" = Some (PyNum (Qc_of_Z 120)).
Proof.
  apply (superheater_body_overwrites boiled100 (Qc_of_Z 200) (Qc_of_Z 120)
           (Q2Qc (1 # 2)) 1); reflexivity.
Defined.

Lemma boiler_body_finish_inv (eff : Qc) (Tb : M pyobj) (s s' : Boiler) :
  (Tb ≫= λ Tb,
     setattr "final_temp" Tb ;;
     h2 ← getattr "h2";
     h1 ← getattr "h1";
     setattr "boiler_heat" (PyNum (num h2 - num h1)) ;;
     if bool_decide (eff ≠ 1) then
       bh ← getattr "boiler_heat";
       setattr "boiler_heat" (PyNum (num bh * eff))
     else mret ()) s = (Return (), s') →
  ∃ (t h1 h2 : pyobj) (s1 : Boiler),
    Tb s = (Return t, s1)
    ∧ s1 !! "h1" = Some h1 ∧ s1 !! "h2" = Some h2
    ∧ s' = <["boiler_heat" := PyNum ((num h2 - num h1) * eff)]>
             (<["final_temp" := t]> s1).
Proof.
  unfold mbind at 1, M_bind at 1, bind at 1.
  destruct (Tb s) as [[t|e] s1]; [|done]. run. attrs.
  destruct (s1 !! "h2") as [h2|] eqn:Hh2; simpl; [|done]. attrs.
  destruct (s1 !! "h1") as [h1|] eqn:Hh1; simpl; [|done].
  intros H. exists t, h1, h2, s1. split_and!; try done.
  revert H. case_bool_decide as He; attrs.
  - intros [= <-]. by rewrite insert_insert_eq.
  - subst eff. rewrite Qcmult_1_r. by intros [= <-].
Qed.

(** X16: whenever the statements of [boiler] return, on whichever of the
    three paths, the [boiler_heat] they leave is the difference of the
    two enthalpies they stored, [h2 - h1], multiplied by the efficiency:
    with an efficiency between 0 and 1 and [h1] not above [h2] the
    recorded heat is never negative and never more than [h2 - h1]. *)
Theorem boiler_body_heat (prov : provider) (s s' : Boiler) (eff : Qc)
    (Hret : boiler_body prov eff s = (Return (), s'))
    (Hpos : 0 ≤ eff) (Hle : eff ≤ 1) :
  ∃ h1 h2 : pyobj,
    s' !! "h1" = Some h1 ∧ s' !! "h2" = Some h2
    ∧ is_Some (s' !! "final_temp")
    ∧ s' !! "boiler_heat" = Some (PyNum ((num h2 - num h1) * eff))
    ∧ (num h1 ≤ num h2 →
       0 ≤ (num h2 - num h1) * eff ∧ (num h2 - num h1) * eff ≤ num h2 - num h1).
Proof.
  unfold boiler_body in Hret.
  unfold mbind at 1, M_bind at 1, bind at 1, hasattr at 1 in Hret.
  cbv beta iota in Hret.
  apply boiler_body_finish_inv in Hret
    as (t & h1 & h2 & s1 & _ & Hh1 & Hh2 & ->).
  exists h1, h2. split_and!; [by attrs|by attrs|by attrs|by attrs|].
  intros Hh. assert (0 ≤ num h2 - num h1) as Hd
    by by apply (proj1 (Qcle_minus_iff _ _)).
  split.
  - rewrite <-(Qcmult_0_r (num h2 - num h1)).
    by apply Qcmult_le_mono_nonneg_l.
  - rewrite <-(Qcmult_1_r (num h2 - num h1)) at 2.
    by apply Qcmult_le_mono_nonneg_l.
Qed.

Lemma boiler_body_heat_witness :
  ∃ h1 h2 : pyobj,
    (boiler_body toy_provider (Q2Qc (1 # 2)) plant100).2 !! "h1" = Some h1
    ∧ (boiler_body toy_provider (Q2Qc (1 # 2)) plant100).2 !! "h2" = Some h2
    ∧ is_Some ((boiler_body toy_provider (Q2Qc (1 # 2)) plant100).2
                 !! "final_temp")
    ∧ (boiler_body toy_provider (Q2Qc (1 # 2)) plant100).2 !! "boiler_heat"
      = Some (PyNum ((num h2 - num h1) * Q2Qc (1 # 2)))
    ∧ (num h1 ≤ num h2 →
       0 ≤ (num h2 - num h1) * Q2Qc (1 # 2)
       ∧ (num h2 - num h1) * Q2Qc (1 # 2) ≤ num h2 - num h1).
Proof.
  apply (boiler_body_heat toy_provider plant100 _ (Q2Qc (1 # 2))); done.
Defined.

(** ** What each stage assigns *)

Ltac assigns_only :=
  let name := fresh "name" in
  intros name;
  unfold feed_pump_attrs, air_preheater_attrs, boiler_attrs, superheater_attrs;
  rewrite ?not_elem_of_cons; intros;
  repeat match goal with H : _ ∧ _ |- _ => destruct H end;
  unfold feed_pump_body, air_preheater_body, resolve_Tp2, boiler_body,
    boiler_at_pressure, superheater_body;
  frame.

(** X17: the statements of a stage assign the attributes of that stage
    and no others, whether they return or raise.  The attributes of the
    feed pump, of the economiser and of the air preheater belong to no
    other stage; the boiler and the superheater share one attribute,
    [final_temp], which each of the two assigns, and nothing else.  So a
    stage that is run again leaves what the other stages recorded as it
    was, except that the boiler and the superheater replace each other's
    [final_temp]. *)
Theorem stages_assign_only_their_attributes (prov : provider)
    (P2 eff f1 f2 Tp1 final_temp : Qc) (Tp2 : option Qc) :
  (∀ name, name ∉ feed_pump_attrs → keeps name (feed_pump_body P2 eff))
  ∧ (∀ name, name ∉ economiser_attrs → keeps name (economiser prov f1 f2))
  ∧ (∀ name, name ∉ air_preheater_attrs →
       keeps name (air_preheater_body Tp1 Tp2 eff))
  ∧ (∀ name, name ∉ boiler_attrs → keeps name (boiler_body prov eff))
  ∧ (∀ name, name ∉ superheater_attrs →
       keeps name (superheater_body final_temp eff))
  ∧ Forall (λ name, name ∉ economiser_attrs ++ air_preheater_attrs
                             ++ boiler_attrs ++ superheater_attrs)
      feed_pump_attrs
  ∧ Forall (λ name, name ∉ air_preheater_attrs ++ boiler_attrs
                             ++ superheater_attrs)
      economiser_attrs
  ∧ Forall (λ name, name ∉ boiler_attrs ++ superheater_attrs)
      air_preheater_attrs
  ∧ filter (.∈ superheater_attrs) boiler_attrs = ["final_temp"].
Proof.
  split_and!.
  - assigns_only.
  - intros name. apply economiser_keeps.
  - assigns_only.
  - assigns_only.
  - assigns_only.
  - unfold feed_pump_attrs, economiser_attrs, air_preheater_attrs,
      boiler_attrs, superheater_attrs; simpl.
    repeat constructor; rewrite !not_elem_of_cons; split_and!;
      (done || apply not_elem_of_nil).
  - unfold feed_pump_attrs, economiser_attrs, air_preheater_attrs,
      boiler_attrs, superheater_attrs; simpl.
    repeat constructor; rewrite !not_elem_of_cons; split_and!;
      (done || apply not_elem_of_nil).
  - unfold feed_pump_attrs, economiser_attrs, air_preheater_attrs,
      boiler_attrs, superheater_attrs; simpl.
    repeat constructor; rewrite !not_elem_of_cons; split_and!;
      (done || apply not_elem_of_nil).
  - by vm_compute.
Qed.
